(** * Thinker-Qt: the ThinkerManager and its view of the ThinkerRunner

    A shallow embedding of [src/thinkermanager.cpp] and of the inline
    members of [src/thinkerrunner.h].

    Objects live in a heap indexed by their address; a [shared_ptr] is an
    address, [nullptr] is [None].  Every member function is a computation in
    a small resumption monad: it threads the shared state of the process and
    the calling thread's own event log, it stops at a failed [hopefully], and
    it suspends where the source blocks on a condition. *)

From stdpp Require Import base gmap sets list.

#[local] Set Warnings "-clear-no-such-hyp".

Module Thinker.

(** ** Data *)

(** Addresses of [ThinkerBase], [ThinkerRunner] and [QThread] objects. *)
Definition ThinkerId := nat.
Definition RunnerId := nat.
Definition ThreadId := nat.

(** [codeplace]: the value of the [HERE] macro.  [HERE n] is line [n] of
    thinkermanager.cpp; [RUNNER_HERE] stands for the places inside
    thinkerrunner.cpp, whose lines are not known. *)
Inductive codeplace :=
| HERE (line : nat)
| RUNNER_HERE.

(** [ThinkerBase::state], with the enumerators thinkermanager.cpp uses. *)
Inductive ThinkerState :=
| ThinkerOwnedByRunner
| ThinkerFinished
| ThinkerCanceled.

(** [ThinkerRunner::State] (thinkerrunner.h, lines 60-69). *)
Inductive State :=
| RunnerInitializing
| RunnerThinking
| RunnerPausing
| RunnerPaused
| RunnerCanceling
| RunnerCanceled
| RunnerResuming
| RunnerFinished.

#[global] Instance ThinkerState_eq_dec : EqDecision ThinkerState.
Proof. solve_decision. Defined.
#[global] Instance State_eq_dec : EqDecision State.
Proof. solve_decision. Defined.

(** The two fields of a [ThinkerRunner] the manager depends on. *)
Record ThinkerRunner := mkRunner {
  state : State;
  holder : ThinkerId
}.

(** A [ThinkerRunnerProxy], the [QRunnable] the pool runs: the runner it
    stands for and its [autoDelete] flag. *)
Record ThinkerRunnerProxy := mkProxy {
  runner : RunnerId;
  autoDelete : bool
}.

Inductive Mutex := mapsMutex | pushThreadMutex.
Inductive Condition := threadsNeedPushing | threadsWerePushed.

(** What a thread does to its collaborators, in program order. *)
Inductive Event :=
| Lock (m : Mutex)
| Unlock (m : Mutex)
| RequestPause (r : RunnerId) (isCanceledOkay : bool)
| WaitForPause (r : RunnerId) (isCanceledOkay : bool)
| RequestCancel (r : RunnerId) (isAlreadyCanceledOkay : bool)
| RequestResume (r : RunnerId) (isCanceledOkay : bool)
| WaitForResume (r : RunnerId)
| WaitForFinished (r : RunnerId)
| DoThreadPush (r : RunnerId)
| WakeOne (c : Condition)
| WakeAll (c : Condition)
| Wait (c : Condition)
| EmitPushToThreadMayBeNeeded
| PoolStart (p : ThinkerRunnerProxy)
| PoolWaitForDone.

(** The state shared by all threads: the members of the one
    [ThinkerManager] that the functions below use ([threadMap], which they do
    not touch, is left out), the heap of thinkers and runners, and the global
    thread pool. *)
Record World := mkWorld {
  thread : ThreadId;                      (* QObject::thread() of the manager *)
  thinkerMap : gmap ThinkerId RunnerId;
  runnerSetToPush : gset RunnerId;
  thinkers : ThinkerId -> ThinkerState;   (* ThinkerBase::state *)
  runners : RunnerId -> ThinkerRunner;
  nextRunner : RunnerId;                  (* the address [new] returns next *)
  pool : list ThinkerRunnerProxy          (* runnables the pool has not finished *)
}.

Definition set_thinkerMap (f : gmap ThinkerId RunnerId -> gmap ThinkerId RunnerId)
  (w : World) : World :=
  mkWorld (thread w) (f (thinkerMap w)) (runnerSetToPush w) (thinkers w)
          (runners w) (nextRunner w) (pool w).

Definition set_runnerSetToPush (f : gset RunnerId -> gset RunnerId) (w : World) : World :=
  mkWorld (thread w) (thinkerMap w) (f (runnerSetToPush w)) (thinkers w)
          (runners w) (nextRunner w) (pool w).

Definition set_thinker (t : ThinkerId) (st : ThinkerState) (w : World) : World :=
  mkWorld (thread w) (thinkerMap w) (runnerSetToPush w)
          (fun t' => if decide (t' = t) then st else thinkers w t')
          (runners w) (nextRunner w) (pool w).

Definition set_runner (r : RunnerId) (o : ThinkerRunner) (w : World) : World :=
  mkWorld (thread w) (thinkerMap w) (runnerSetToPush w) (thinkers w)
          (fun r' => if decide (r' = r) then o else runners w r')
          (nextRunner w) (pool w).

Definition set_state (r : RunnerId) (st : State) (w : World) : World :=
  set_runner r (mkRunner st (holder (runners w r))) w.

Definition set_nextRunner (n : RunnerId) (w : World) : World :=
  mkWorld (thread w) (thinkerMap w) (runnerSetToPush w) (thinkers w)
          (runners w) n (pool w).

Definition set_pool (f : list ThinkerRunnerProxy -> list ThinkerRunnerProxy)
  (w : World) : World :=
  mkWorld (thread w) (thinkerMap w) (runnerSetToPush w) (thinkers w)
          (runners w) (nextRunner w) (f (pool w)).

Definition stateOf (w : World) (r : RunnerId) : State := state (runners w r).

(** ** Suspension *)

(** What a suspended thread is waiting for. *)
Inductive WaitFor :=
| UntilPaused (r : RunnerId)
| UntilResumed (r : RunnerId)
| UntilFinished (r : RunnerId)
| OnCondition (c : Condition)
| UntilPoolDone.

Definition terminal (st : State) : bool :=
  match st with RunnerFinished | RunnerCanceled => true | _ => false end.

(** The states of the world in which the suspended thread goes on.  For the
    waits of a [ThinkerRunner] (thinkerrunner.cpp is missing) these are the
    conditions of the spec: wait-for-pause waits "until state is Paused or
    Canceled", wait-for-resume "until state leaves Resuming", and
    wait-for-finished "until state is Finished or Canceled".  A
    [QWaitCondition] is left when another thread wakes it, which can be in
    any state of the world; [QThreadPool::waitForDone] is left when the pool
    has no work. *)
Definition ready (c : WaitFor) (w : World) : bool :=
  match c with
  | UntilPaused r =>
      match stateOf w r with RunnerPaused | RunnerCanceled => true | _ => false end
  | UntilResumed r =>
      match stateOf w r with RunnerResuming => false | _ => true end
  | UntilFinished r => terminal (stateOf w r)
  | OnCondition _ => true
  | UntilPoolDone => match pool w with [] => true | _ => false end
  end.

(** The outcome of running a member function on one thread.
    [Blocked c w tr k]: the thread is suspended on [c]; the other threads go
    on from [w], and once they have brought the world to a [w'] with
    [ready c w'] the thread goes on as [k w'].
    [Failed cp w tr]: the [hopefully] at [cp] did not hold.
    [Unfinished]: the bound on the iterations of a [forever] was reached. *)
Inductive Result (A : Type) :=
| Done (a : A) (w : World) (tr : list Event)
| Failed (cp : codeplace) (w : World) (tr : list Event)
| Unfinished (w : World) (tr : list Event)
| Blocked (c : WaitFor) (w : World) (tr : list Event) (k : World -> Result A).

Arguments Done {A} a w tr.
Arguments Failed {A} cp w tr.
Arguments Unfinished {A} w tr.
Arguments Blocked {A} c w tr k.

Definition M (A : Type) := World -> list Event -> Result A.

Definition ret {A} (a : A) : M A := fun w tr => Done a w tr.

Fixpoint bindR {A B} (r : Result A) (f : A -> M B) : Result B :=
  match r with
  | Done a w tr => f a w tr
  | Failed cp w tr => Failed cp w tr
  | Unfinished w tr => Unfinished w tr
  | Blocked c w tr k => Blocked c w tr (fun w' => bindR (k w') f)
  end.

Definition bind {A B} (m : M A) (f : A -> M B) : M B :=
  fun w tr => bindR (m w tr) f.

Notation "x <- m ;; k" := (bind m (fun x => k))
  (at level 100, m at next level, right associativity).
Notation "m ;; k" := (bind m (fun _ => k))
  (at level 100, right associativity).

Definition gets {A} (f : World -> A) : M A := fun w tr => Done (f w) w tr.
Definition modify (f : World -> World) : M unit := fun w tr => Done tt (f w) tr.
Definition emit (e : Event) : M unit := fun w tr => Done tt w (tr ++ [e]).

(** [hopefully(cond, cp)]: the assertion helper.  A condition that does not
    hold is a programming error, and the thread does not go on. *)
Definition hopefully (cond : bool) (cp : codeplace) : M unit :=
  fun w tr => if cond then Done tt w tr else Failed cp w tr.

(** A blocking call: return at once where the world is ready, suspend
    otherwise. *)
Definition await (c : WaitFor) : M unit :=
  fun w tr => if ready c w then Done tt w tr else Blocked c w tr (fun w' => Done tt w' tr).

(** [QWaitCondition::wait]: always suspends, until another thread wakes it. *)
Definition condWait (c : Condition) : M unit :=
  fun w tr => Blocked (OnCondition c) w (tr ++ [Wait c]) (fun w' => Done tt w' (tr ++ [Wait c])).

Fixpoint forEach {A} (l : list A) (body : A -> M unit) : M unit :=
  match l with
  | [] => ret tt
  | x :: l' => body x ;; forEach l' body
  end.

(** One round of the other threads: they take the world of a suspended
    thread to [env w]; the thread goes on if that is what it waits for. *)
Definition resume {A} (env : World -> World) (r : Result A) : Result A :=
  match r with
  | Blocked c w tr k =>
      if ready c (env w) then k (env w) else Blocked c (env w) tr k
  | _ => r
  end.

(** ** thinkerrunner.h: members defined in thinkerrunner.cpp *)

(** Modelled from the spec: [ThinkerRunner::isFinished], declared in
    thinkerrunner.h and defined in thinkerrunner.cpp, which is missing;
    a snapshot of the state under the signal mutex. *)
Definition isFinished (r : RunnerId) : M bool :=
  gets (fun w => bool_decide (stateOf w r = RunnerFinished)).

(** Modelled from the spec: [ThinkerRunner::isCanceled] (thinkerrunner.cpp is
    missing); a snapshot of the state under the signal mutex. *)
Definition isCanceled (r : RunnerId) : M bool :=
  gets (fun w => bool_decide (stateOf w r = RunnerCanceled)).

(** Modelled from the spec: [ThinkerRunner::isPaused] (thinkerrunner.cpp is
    missing); a snapshot of the state under the signal mutex. *)
Definition isPaused (r : RunnerId) : M bool :=
  gets (fun w => bool_decide (stateOf w r = RunnerPaused)).

(** Modelled from the spec: [ThinkerRunner::requestPauseCore]
    (thinkerrunner.cpp is missing).  "If state is Thinking, set Pausing; if
    state is Canceled and allow-canceled, no-op; else assert"; and "a pause
    issued after Canceling is silently accepted but has no effect". *)
Definition requestPauseCore (r : RunnerId) (isCanceledOkay : bool) (cp : codeplace) : M unit :=
  emit (RequestPause r isCanceledOkay) ;;
  st <- gets (fun w => stateOf w r) ;;
  match st with
  | RunnerThinking => modify (set_state r RunnerPausing)
  | RunnerCanceled => hopefully isCanceledOkay cp
  | RunnerCanceling => ret tt
  | _ => hopefully false cp
  end.

(** Modelled from the spec: [ThinkerRunner::waitForPauseCore]
    (thinkerrunner.cpp is missing).  "Wait on the condition until state is
    Paused or Canceled; if Canceled and not allow-canceled, assert." *)
Definition waitForPauseCore (r : RunnerId) (isCanceledOkay : bool) : M unit :=
  emit (WaitForPause r isCanceledOkay) ;;
  await (UntilPaused r) ;;
  st <- gets (fun w => stateOf w r) ;;
  match st with
  | RunnerCanceled => hopefully isCanceledOkay RUNNER_HERE
  | _ => ret tt
  end.

(** Modelled from the spec: [ThinkerRunner::requestCancelCore]
    (thinkerrunner.cpp is missing).  The request is "valid from any
    non-terminal state", with the transitions "Thinking→Canceling,
    Pausing→Canceling (the worker will observe it at the next poll),
    Paused→Canceled (wake the worker so it unwinds), Finished→Canceled
    (post-finish cancel relabels the terminal state), Canceled→Canceled
    (idempotent iff allowed)".  The only assertion is the one on a Canceled
    runner.  For a runner that is Initializing or Resuming the spec names no
    target: the request is taken to Canceling like that of a Thinking runner,
    for the worker to observe at its next poll.  On a runner that is
    Canceling already, a second request "is equivalent to a single call": it
    changes nothing. *)
Definition requestCancelCore (r : RunnerId) (isAlreadyCanceledOkay : bool)
  (cp : codeplace) : M unit :=
  emit (RequestCancel r isAlreadyCanceledOkay) ;;
  st <- gets (fun w => stateOf w r) ;;
  match st with
  | RunnerInitializing | RunnerThinking | RunnerPausing | RunnerResuming =>
      modify (set_state r RunnerCanceling)
  | RunnerCanceling => ret tt
  | RunnerPaused | RunnerFinished => modify (set_state r RunnerCanceled)
  | RunnerCanceled => hopefully isAlreadyCanceledOkay cp
  end.

(** Modelled from the spec: [ThinkerRunner::requestResumeCore]
    (thinkerrunner.cpp is missing).  "If state is Paused, set Resuming"; on a
    runner that is not Paused it "is a no-op when the allow-canceled flag is
    set; otherwise an assertion". *)
Definition requestResumeCore (r : RunnerId) (isCanceledOkay : bool) (cp : codeplace) : M unit :=
  emit (RequestResume r isCanceledOkay) ;;
  st <- gets (fun w => stateOf w r) ;;
  match st with
  | RunnerPaused => modify (set_state r RunnerResuming)
  | _ => hopefully isCanceledOkay cp
  end.

(** Modelled from the spec: [ThinkerRunner::waitForResume] (thinkerrunner.cpp
    is missing).  "Wait until state leaves Resuming (i.e., Thinking) or
    reaches Canceled." *)
Definition waitForResume (r : RunnerId) (cp : codeplace) : M unit :=
  emit (WaitForResume r) ;; await (UntilResumed r).

(** Modelled from the spec: [ThinkerRunner::waitForFinished]
    (thinkerrunner.cpp is missing).  "Wait until state is Finished or
    Canceled." *)
Definition waitForFinished (r : RunnerId) (cp : codeplace) : M unit :=
  emit (WaitForFinished r) ;; await (UntilFinished r).

(** Modelled from the spec: [ThinkerRunner::doThreadPushIfNecessary]
    (thinkerrunner.cpp is missing): "perform the affinity move". *)
Definition doThreadPushIfNecessary (r : RunnerId) : M unit :=
  emit (DoThreadPush r).

(** The inline wrappers of thinkerrunner.h, lines 133-161. *)
Definition requestPauseButCanceledIsOkay (r : RunnerId) (cp : codeplace) : M unit :=
  requestPauseCore r true cp.
Definition waitForPauseButCanceledIsOkay (r : RunnerId) : M unit :=
  waitForPauseCore r true.
Definition requestCancelButAlreadyCanceledIsOkay (r : RunnerId) (cp : codeplace) : M unit :=
  requestCancelCore r true cp.
Definition requestResume (r : RunnerId) (cp : codeplace) : M unit :=
  requestResumeCore r false cp.
Definition requestResumeButCanceledIsOkay (r : RunnerId) (cp : codeplace) : M unit :=
  requestResumeCore r true cp.

(** ** thinkerrunner.h, inline members *)

(** [ThinkerRunner::hopefullyCurrentThreadIsPooled], lines 105-111: the call
    to the manager is commented out, the body is [return true]. *)
Definition hopefullyCurrentThreadIsPooled (runner : RunnerId) (cur : ThreadId)
  (cp : codeplace) (w : World) : bool := true.

(** ** thinkermanager.cpp *)

(** [hopefullyThreadIsManager], lines 55-58. *)
Definition hopefullyThreadIsManager (th : ThreadId) (cp : codeplace) : M unit :=
  me <- gets thread ;; hopefully (bool_decide (th = me)) cp.

(** [hopefullyCurrentThreadIsManager], lines 60-63; [cur] is
    [QThread::currentThread()]. *)
Definition hopefullyCurrentThreadIsManager (cur : ThreadId) (cp : codeplace) : M unit :=
  hopefullyThreadIsManager cur cp.

(** [hopefullyThreadIsNotManager], lines 65-68. *)
Definition hopefullyThreadIsNotManager (th : ThreadId) (cp : codeplace) : M unit :=
  me <- gets thread ;; hopefully (negb (bool_decide (th = me))) cp.

(** [hopefullyCurrentThreadIsNotManager], lines 70-73. *)
Definition hopefullyCurrentThreadIsNotManager (cur : ThreadId) (cp : codeplace) : M unit :=
  hopefullyThreadIsNotManager cur cp.

(** [addToThinkerMap], lines 240-250. *)
Definition addToThinkerMap (runner : RunnerId) : M unit :=
  emit (Lock mapsMutex) ;;
  thinker <- gets (fun w => holder (runners w runner)) ;;
  present <- gets (fun w => bool_decide (is_Some (thinkerMap w !! thinker))) ;;
  hopefully (negb present) (HERE 248) ;;
  modify (set_thinkerMap (insert thinker runner)) ;;
  emit (Unlock mapsMutex).

(** [removeFromThinkerMap], lines 253-266.  [QMap::remove] returns the
    number of entries it removed. *)
Definition removeFromThinkerMap (runner : RunnerId) (wasCanceled : bool) : M unit :=
  emit (Lock mapsMutex) ;;
  thinker <- gets (fun w => holder (runners w runner)) ;;
  removed <- gets (fun w => match thinkerMap w !! thinker with Some _ => 1 | None => 0 end) ;;
  modify (set_thinkerMap (delete thinker)) ;;
  hopefully (bool_decide (removed = 1)) (HERE 260) ;;
  st <- gets (fun w => thinkers w thinker) ;;
  hopefully (bool_decide (st = ThinkerOwnedByRunner)) (HERE 262) ;;
  modify (set_thinker thinker (if wasCanceled then ThinkerCanceled else ThinkerFinished)) ;;
  emit (Unlock mapsMutex).

(** [maybeGetRunnerForThinker], lines 161-173. *)
Definition maybeGetRunnerForThinker (thinker : ThinkerId) : M (option RunnerId) :=
  emit (Lock mapsMutex) ;;
  result <- gets (fun w => thinkerMap w !! thinker) ;;
  st <- gets (fun w => thinkers w thinker) ;;
  match result with
  | None =>
      hopefully (bool_decide (st = ThinkerCanceled) || bool_decide (st = ThinkerFinished)) (HERE 169)
  | Some _ => ret tt
  end ;;
  emit (Unlock mapsMutex) ;;
  ret result.

(** [QThreadPool::start]: the runnable is queued, "it may take a while
    before a thread gets allocated to it". *)
Definition poolStart (runnable : ThinkerRunnerProxy) : M unit :=
  modify (set_pool (fun p => p ++ [runnable])) ;; emit (PoolStart runnable).

(** [QThreadPool::waitForDone]: blocks until the pool has no work left. *)
Definition poolWaitForDone : M unit :=
  emit PoolWaitForDone ;; await UntilPoolDone.

(** Modelled from the spec: the construction of the runner and of its proxy
    at lines 90-91 (the constructors of [ThinkerRunner] and
    [ThinkerRunnerProxy] are in thinkerrunner.cpp, which is missing).  A
    Runner is "created by Manager in state Initializing", and
    create-runner-for "constructs a Runner, inserts into ThinkerMap under the
    maps mutex"; the comment at lines 93-97 has the insertion happen "on
    construction". *)
Definition newThinkerRunner (holder : ThinkerId) : M RunnerId :=
  runner <- gets nextRunner ;;
  modify (set_nextRunner (S runner)) ;;
  modify (set_runner runner (mkRunner RunnerInitializing holder)) ;;
  addToThinkerMap runner ;;
  ret runner.

(** [createRunnerForThinker], lines 85-107. *)
Definition createRunnerForThinker (cur : ThreadId) (holder : ThinkerId)
  (cp : codeplace) : M unit :=
  hopefullyCurrentThreadIsManager cur cp ;;
  runner <- newThinkerRunner holder ;;
  let runnerProxy := mkProxy runner true in     (* setAutoDelete(true) *)
  poolStart runnerProxy.

(** [ensureThinkersPaused], lines 109-136. *)
Definition ensureThinkersPaused (cur : ThreadId) (cp : codeplace) : M unit :=
  hopefullyCurrentThreadIsManager cur (HERE 111) ;;
  emit (Lock mapsMutex) ;;
  mapCopy <- gets thinkerMap ;;
  emit (Unlock mapsMutex) ;;
  forEach (map_to_list mapCopy) (fun i => requestPauseButCanceledIsOkay i.2 cp) ;;
  forEach (map_to_list mapCopy) (fun i => waitForPauseButCanceledIsOkay i.2).

(** [ensureThinkersResumed], lines 138-152. *)
Definition ensureThinkersResumed (cur : ThreadId) (cp : codeplace) : M unit :=
  hopefullyCurrentThreadIsManager cur (HERE 140) ;;
  emit (Lock mapsMutex) ;;
  i <- gets thinkerMap ;;
  forEach (map_to_list i)
    (fun i => paused <- isPaused i.2 ;;
              if paused then requestResumeButCanceledIsOkay i.2 cp else ret tt) ;;
  emit (Unlock mapsMutex).

(** [requestAndWaitForCancelButAlreadyCanceledIsOkay], lines 184-195. *)
Definition requestAndWaitForCancelButAlreadyCanceledIsOkay (thinker : ThinkerId) : M unit :=
  runner <- maybeGetRunnerForThinker thinker ;;
  match runner with
  | None => modify (set_thinker thinker ThinkerCanceled)
  | Some runner =>
      requestCancelButAlreadyCanceledIsOkay runner (HERE 191) ;;
      waitForFinished runner (HERE 192)
  end ;;
  st <- gets (fun w => thinkers w thinker) ;;
  hopefully (bool_decide (st = ThinkerCanceled)) (HERE 194).

(** [ensureThinkerFinished], lines 198-221. *)
Definition ensureThinkerFinished (cur : ThreadId) (thinker : ThinkerId) : M unit :=
  hopefullyCurrentThreadIsManager cur (HERE 200) ;;
  runner <- maybeGetRunnerForThinker thinker ;;
  match runner with
  | Some runner =>
      canceled <- isCanceled runner ;;
      hopefully (negb canceled) (HERE 205) ;;
      paused <- isPaused runner ;;
      (if paused
       then requestResume runner (HERE 211) ;; waitForResume runner (HERE 212)
       else ret tt) ;;
      waitForFinished runner (HERE 215) ;;
      finished <- isFinished runner ;;
      hopefully finished (HERE 216) ;;
      modify (set_thinker thinker ThinkerFinished)
  | None => ret tt
  end ;;
  st <- gets (fun w => thinkers w thinker) ;;
  hopefully (bool_decide (st = ThinkerFinished)) (HERE 220).

(** [waitForPushToThread], lines 289-298. *)
Definition waitForPushToThread (cur : ThreadId) (runner : RunnerId) : M unit :=
  hopefullyCurrentThreadIsNotManager cur (HERE 291) ;;
  emit (Lock pushThreadMutex) ;;
  modify (set_runnerSetToPush (fun s => {[runner]} ∪ s)) ;;
  emit (WakeOne threadsNeedPushing) ;;
  emit EmitPushToThreadMayBeNeeded ;;
  condWait threadsWerePushed ;;
  emit (Unlock pushThreadMutex).

(** The [foreach] of lines 308-312: push every queued runner, and remember
    whether the one waited for was among them. *)
Fixpoint pushEach (runner : option RunnerId) (l : list RunnerId) (found : bool) : M bool :=
  match l with
  | [] => ret found
  | runnerToPush :: l' =>
      doThreadPushIfNecessary runnerToPush ;;
      pushEach runner l' (found || bool_decide (runner = Some runnerToPush))
  end.

(** The [forever] of lines 306-318, run for at most [fuel] rounds. *)
Fixpoint pushRounds (fuel : nat) (runner : option RunnerId) : M unit :=
  match fuel with
  | 0 => fun w tr => Unfinished w tr
  | S fuel' =>
      queued <- gets runnerSetToPush ;;
      found <- pushEach runner (elements queued) false ;;
      modify (set_runnerSetToPush (fun _ => ∅)) ;;
      emit (WakeAll threadsWerePushed) ;;
      if found || bool_decide (runner = None)
      then emit (Unlock pushThreadMutex)
      else condWait threadsNeedPushing ;; pushRounds fuel' runner
  end.

(** [processThreadPushesUntil], lines 301-319; the target is [None] for a
    null pointer. *)
Definition processThreadPushesUntil (fuel : nat) (cur : ThreadId)
  (runner : option RunnerId) : M unit :=
  hopefullyCurrentThreadIsManager cur (HERE 303) ;;
  emit (Lock pushThreadMutex) ;;
  pushRounds fuel runner.

(** [doThreadPushesIfNecessary], lines 322-325. *)
Definition doThreadPushesIfNecessary (fuel : nat) (cur : ThreadId) : M unit :=
  processThreadPushesUntil fuel cur None.

(** The loop of lines 339-344 of the destructor. *)
Fixpoint checkRunners (l : list (ThinkerId * RunnerId)) (anyRunners : bool) : M bool :=
  match l with
  | [] => ret anyRunners
  | i :: l' =>
      canceled <- isCanceled i.2 ;;
      finished <- isFinished i.2 ;;
      hopefully (canceled || finished) (HERE 342) ;;
      checkRunners l' true
  end.

(** [~ThinkerManager], lines 328-349. *)
Definition destroyThinkerManager (cur : ThreadId) : M unit :=
  hopefullyCurrentThreadIsManager cur (HERE 330) ;;
  emit (Lock mapsMutex) ;;
  i <- gets thinkerMap ;;
  anyRunners <- checkRunners (map_to_list i) false ;;
  emit (Unlock mapsMutex) ;;
  if anyRunners then poolWaitForDone else ret tt.

(** ** Worlds used in the examples: runner [r] holds thinker [r]. *)

Definition emptyWorld (st : ThinkerState) (rs : State) : World :=
  mkWorld 0 ∅ ∅ (fun _ => st) (fun r => mkRunner rs r) 0 [].

(** Runner 1 is registered for thinker 1, whose state is [st]; every other
    thinker is Finished. *)
Definition oneThinker (st : ThinkerState) (rs : State) : World :=
  set_thinkerMap (insert 1 1) (set_thinker 1 st (emptyWorld ThinkerFinished rs)).

(** ** The thinker map and the state of the thinkers *)


Definition Coherent (w : World) : Prop :=
  ∀ t, is_Some (thinkerMap w !! t) ↔ thinkers w t = ThinkerOwnedByRunner.



(** ** Properties of every outcome of a call *)

(** [Outcomes D F B r]: however the other threads behave while the call is
    suspended, where the call returns [D] holds, where a [hopefully] fails
    [F] holds, where it is suspended [B] holds; the bound of a [forever] is
    not reached. *)
Fixpoint Outcomes {A} (D : A → World → list Event → Prop)
  (F : codeplace → World → list Event → Prop)
  (B : WaitFor → World → list Event → Prop) (r : Result A) : Prop :=
  match r with
  | Done a w tr => D a w tr
  | Failed cp w tr => F cp w tr
  | Unfinished _ _ => False
  | Blocked c w tr k => B c w tr ∧ ∀ w', ready c w' = true → Outcomes D F B (k w')
  end.

(** Several rounds of the other threads, one after the other. *)
Fixpoint resumeAll {A} (envs : list (World → World)) (r : Result A) : Result A :=
  match envs with
  | [] => r
  | env :: envs' => resumeAll envs' (resume env r)
  end.

(** The world after workers have queued the runners of [batch] with
    [waitForPushToThread]. *)
Definition enqueue (batch : list RunnerId) (w : World) : World :=
  set_runnerSetToPush (fun s => list_to_set batch ∪ s) w.


(** Whether the runner waited for is in the queue. *)
Definition queued (runner : option RunnerId) (w : World) : bool :=
  existsb (fun x => bool_decide (runner = Some x)) (elements (runnerSetToPush w)).

(** The log of one round of [processThreadPushesUntil] up to its broadcast. *)
Definition drain (w : World) : list Event :=
  map DoThreadPush (elements (runnerSetToPush w)) ++ [WakeAll threadsWerePushed].

(** What lines 216-220 of [ensureThinkerFinished] make of the world in
    which the wait of line 215 has returned, [tr] being the log so far. *)
Definition finishedOrFailed (thinker : ThinkerId) (r : RunnerId) (tr : list Event)
  (w : World) : Result unit :=
  if decide (stateOf w r = RunnerFinished)
  then Done tt (set_thinker thinker ThinkerFinished w) tr
  else Failed (HERE 216) w tr.

(** [Suspended r c w tr next]: the call is suspended on [c], having brought
    the world to [w] and its log to [tr], and what it does when it goes on
    in a world [w'] satisfies [next w']. *)
Definition Suspended {A} (r : Result A) (c : WaitFor) (w : World) (tr : list Event)
  (next : World → Result A → Prop) : Prop :=
  ∃ k, r = Blocked c w tr k ∧ ∀ w', next w' (k w').

(** [Finishing thinker r tr w res]: from the world [w], [res] is the wait for
    the runner [r] to be Finished or Canceled (at once if it is, suspended
    until it is otherwise) followed by lines 216-220. *)
Definition Finishing (thinker : ThinkerId) (r : RunnerId) (tr : list Event)
  (w : World) (res : Result unit) : Prop :=
  if terminal (stateOf w r) then res = finishedOrFailed thinker r tr w
  else Suspended res (UntilFinished r) w tr
         (fun w' res' => res' = finishedOrFailed thinker r tr w').

(** ** thinkermanager.cpp: the thread map, the constructor, [unlockThinker] *)

(** The member [threadMap] is passed explicitly: a function that reads it
    takes it, a function that changes it returns the new one. *)

(** [maybeGetRunnerForThread], lines 154-159. *)
Definition maybeGetRunnerForThread (th : ThreadId)
  (threadMap : gmap ThreadId RunnerId) : M (option RunnerId) :=
  emit (Lock mapsMutex) ;;
  let result := threadMap !! th in
  emit (Unlock mapsMutex) ;;
  ret result.

(** [hopefullyThreadIsThinker], lines 75-78. *)
Definition hopefullyThreadIsThinker (th : ThreadId) (cp : codeplace)
  (threadMap : gmap ThreadId RunnerId) : M unit :=
  result <- maybeGetRunnerForThread th threadMap ;;
  hopefully (bool_decide (is_Some result)) cp.

(** [hopefullyCurrentThreadIsThinker], lines 80-83. *)
Definition hopefullyCurrentThreadIsThinker (cur : ThreadId) (cp : codeplace)
  (threadMap : gmap ThreadId RunnerId) : M unit :=
  hopefullyThreadIsThinker cur cp threadMap.

(** [getThinkerForThreadMaybeNull], lines 175-182. *)
Definition getThinkerForThreadMaybeNull (th : ThreadId)
  (threadMap : gmap ThreadId RunnerId) : M (option ThinkerId) :=
  runner <- maybeGetRunnerForThread th threadMap ;;
  match runner with
  | None => ret None
  | Some runner => thinker <- gets (fun w => holder (runners w runner)) ;; ret (Some thinker)
  end.

(** [addToThreadMap], lines 269-276. *)
Definition addToThreadMap (runner : RunnerId) (th : ThreadId)
  (threadMap : gmap ThreadId RunnerId) : M (gmap ThreadId RunnerId) :=
  emit (Lock mapsMutex) ;;
  hopefully (negb (bool_decide (is_Some (threadMap !! th)))) (HERE 274) ;;
  let threadMap := <[th := runner]> threadMap in
  emit (Unlock mapsMutex) ;;
  ret threadMap.

(** [removeFromThreadMap], lines 279-286; the runner is [Q_UNUSED]. *)
Definition removeFromThreadMap (runner : RunnerId) (th : ThreadId)
  (threadMap : gmap ThreadId RunnerId) : M (gmap ThreadId RunnerId) :=
  emit (Lock mapsMutex) ;;
  let removed := match threadMap !! th with Some _ => 1 | None => 0 end in
  let threadMap := delete th threadMap in
  hopefully (bool_decide (removed = 1)) (HERE 285) ;;
  emit (Unlock mapsMutex) ;;
  ret threadMap.

(** The constructor [ThinkerManager::ThinkerManager], lines 43-53, run on the
    thread [cur]: a [QObject] lives in the thread that creates it, the maps
    and the push queue start empty; the heap and the global pool are what
    they are.  The two [connect] calls are left out. *)
Definition newThinkerManager (cur : ThreadId) : M unit :=
  modify (fun w => mkWorld cur ∅ ∅ (thinkers w) (runners w) (nextRunner w) (pool w)) ;;
  hopefullyCurrentThreadIsManager cur (HERE 47).

(** What [unlockThinker] does to the throttlers and to the thinker's
    [watchersLock]. *)
Inductive Pulse :=
| LockForRead (thinker : ThinkerId)
| NotificationEmitThrottled (watcher : nat)
| WatchersUnlock (thinker : ThinkerId)
| AnyThinkerWrittenEmitThrottled.

#[global] Instance Pulse_eq_dec : EqDecision Pulse.
Proof. solve_decision. Defined.

(** [unlockThinker], lines 224-237; [watchers] is [thinker.watchers], a
    [QSet] of the addresses of the watchers. *)
Definition unlockThinker (thinker : ThinkerId) (watchers : gset nat) : list Pulse :=
  [LockForRead thinker]
    ++ map NotificationEmitThrottled (elements watchers)
    ++ [WatchersUnlock thinker]
    ++ [AnyThinkerWrittenEmitThrottled].

(** ** Equations of the map operations *)

Lemma addToThinkerMap_eq runner w tr :
  addToThinkerMap runner w tr =
  match thinkerMap w !! holder (runners w runner) with
  | None => Done tt (set_thinkerMap (insert (holder (runners w runner)) runner) w)
                 (tr ++ [Lock mapsMutex] ++ [Unlock mapsMutex])
  | Some _ => Failed (HERE 248) w (tr ++ [Lock mapsMutex])
  end.
Proof.
  unfold addToThinkerMap, bind, emit, gets, modify, hopefully; simpl.
  destruct (thinkerMap w !! holder (runners w runner)) as [r'|] eqn:E; simpl.
  - reflexivity.
  - by rewrite <- app_assoc.
Qed.

Lemma removeFromThinkerMap_eq runner wasCanceled w tr :
  removeFromThinkerMap runner wasCanceled w tr =
  let thinker := holder (runners w runner) in
  match thinkerMap w !! thinker with
  | None => Failed (HERE 260) (set_thinkerMap (delete thinker) w) (tr ++ [Lock mapsMutex])
  | Some _ =>
      if decide (thinkers w thinker = ThinkerOwnedByRunner)
      then Done tt (set_thinker thinker
                      (if wasCanceled then ThinkerCanceled else ThinkerFinished)
                      (set_thinkerMap (delete thinker) w))
                (tr ++ [Lock mapsMutex] ++ [Unlock mapsMutex])
      else Failed (HERE 262) (set_thinkerMap (delete thinker) w) (tr ++ [Lock mapsMutex])
  end.
Proof.
  unfold removeFromThinkerMap, bind, emit, gets, modify, hopefully; simpl.
  destruct (thinkerMap w !! holder (runners w runner)) as [r'|] eqn:E; simpl; [|done].
  destruct (thinkers w (holder (runners w runner))); simpl; try done.
  by rewrite <- app_assoc.
Qed.

Lemma maybeGetRunnerForThinker_eq thinker w tr :
  maybeGetRunnerForThinker thinker w tr =
  match thinkerMap w !! thinker with
  | Some r => Done (Some r) w (tr ++ [Lock mapsMutex] ++ [Unlock mapsMutex])
  | None =>
      if decide (thinkers w thinker = ThinkerOwnedByRunner)
      then Failed (HERE 169) w (tr ++ [Lock mapsMutex])
      else Done None w (tr ++ [Lock mapsMutex] ++ [Unlock mapsMutex])
  end.
Proof.
  unfold maybeGetRunnerForThinker, bind, emit, gets, ret, hopefully; simpl.
  destruct (thinkerMap w !! thinker) as [r|]; simpl.
  - by rewrite <- app_assoc.
  - destruct (thinkers w thinker); simpl; try done; by rewrite <- app_assoc.
Qed.

(** ** The thinker map and the thinkers' states *)

Lemma addToThinkerMap_Done runner w tr w' tr' :
  addToThinkerMap runner w tr = Done tt w' tr' →
  thinkerMap w !! holder (runners w runner) = None ∧
  w' = set_thinkerMap (insert (holder (runners w runner)) runner) w.
Proof.
  rewrite addToThinkerMap_eq.
  destruct (thinkerMap w !! holder (runners w runner)); [done|].
  intros [= <- _]. done.
Qed.

Lemma removeFromThinkerMap_Done runner wasCanceled w tr w' tr' :
  removeFromThinkerMap runner wasCanceled w tr = Done tt w' tr' →
  is_Some (thinkerMap w !! holder (runners w runner)) ∧
  thinkers w (holder (runners w runner)) = ThinkerOwnedByRunner ∧
  w' = set_thinker (holder (runners w runner))
         (if wasCanceled then ThinkerCanceled else ThinkerFinished)
         (set_thinkerMap (delete (holder (runners w runner))) w) ∧
  tr' = tr ++ [Lock mapsMutex; Unlock mapsMutex].
Proof.
  rewrite removeFromThinkerMap_eq. simpl.
  destruct (thinkerMap w !! holder (runners w runner)) eqn:E; [|done].
  destruct (decide _) as [Ho|]; [|done].
  intros [= <- <-]. eauto.
Qed.



(** A call of [addToThinkerMap] that returns never preserves the two-sided
    coherence: the thinker it registers was not a key, so was not
    Owned-By-Runner, and the call does not write its state. *)
Lemma add_breaks_Coherent runner w tr w' tr' :
  Coherent w → addToThinkerMap runner w tr = Done tt w' tr' → ¬ Coherent w'.
Proof.
  intros Hc [Hn ->]%addToThinkerMap_Done Hc'.
  pose proof (proj1 (Hc' (holder (runners w runner)))) as H1. simpl in H1.
  rewrite lookup_insert_eq in H1. specialize (H1 (ltac:(eauto))).
  apply Hc in H1. rewrite Hn in H1. by destruct H1.
Qed.






(** ** Thread identity *)

(** C10: [ThinkerRunner::hopefullyCurrentThreadIsPooled] returns true for
    every runner, every calling thread, every code place and every state of
    the process: it cannot fail, whereas the manager's check of the
    controller thread fails on every thread that is not the manager's. *)
Theorem hopefullyCurrentThreadIsPooled_vacuous :
  (∀ runner cur cp w, hopefullyCurrentThreadIsPooled runner cur cp w = true) ∧
  (∀ cur cp w tr, cur ≠ thread w →
     hopefullyCurrentThreadIsManager cur cp w tr = Failed cp w tr).
Proof.
  split; [done|]. intros cur cp w tr Hne.
  unfold hopefullyCurrentThreadIsManager, hopefullyThreadIsManager, bind, gets, hopefully.
  simpl. by rewrite bool_decide_eq_false_2.
Qed.

Lemma hopefullyCurrentThreadIsPooled_vacuous_witness :
  hopefullyCurrentThreadIsPooled 1 7 (HERE 291)
    (emptyWorld ThinkerOwnedByRunner RunnerThinking) = true ∧
  hopefullyCurrentThreadIsManager 7 (HERE 111)
    (emptyWorld ThinkerOwnedByRunner RunnerThinking) [] =
  Failed (HERE 111) (emptyWorld ThinkerOwnedByRunner RunnerThinking) [].
Proof.
  split.
  - apply (proj1 hopefullyCurrentThreadIsPooled_vacuous).
  - apply (proj2 hopefullyCurrentThreadIsPooled_vacuous). simpl. lia.
Defined.

(** ** Creating a runner *)

(** C4: on the controller thread, for a thinker that has no runner,
    [createRunnerForThinker] returns, and on return a new runner in state
    Initializing is the thinker's entry in the thinker map (inserted between
    a lock and an unlock of the maps mutex) and its proxy, set to be deleted
    after its one run, has been handed to the pool, in that order. *)
Theorem createRunnerForThinker_registers cur holder cp w tr :
  cur = thread w → thinkerMap w !! holder = None →
  ∃ w',
    createRunnerForThinker cur holder cp w tr =
      Done tt w' (tr ++ [Lock mapsMutex; Unlock mapsMutex;
                         PoolStart (mkProxy (nextRunner w) true)]) ∧
    thinkerMap w' = <[holder := nextRunner w]> (thinkerMap w) ∧
    runners w' (nextRunner w) = mkRunner RunnerInitializing holder ∧
    pool w' = pool w ++ [mkProxy (nextRunner w) true] ∧
    (∀ t, thinkers w' t = thinkers w t).
Proof.
  intros -> Hn.
  unfold createRunnerForThinker, newThinkerRunner, poolStart,
    hopefullyCurrentThreadIsManager, hopefullyThreadIsManager.
  unfold bind at 1 2. unfold gets at 1, hopefully at 1. simpl.
  rewrite bool_decide_eq_true_2 by done. simpl.
  unfold bind at 1 2. unfold bind at 1. unfold gets at 1. simpl.
  unfold bind at 1. unfold modify at 1. simpl.
  unfold bind at 1. unfold modify at 1. simpl.
  unfold bind at 1. rewrite addToThinkerMap_eq. simpl.
  rewrite decide_True by done. simpl. rewrite Hn. simpl.
  eexists. split.
  - unfold emit. rewrite <- !app_assoc. reflexivity.
  - simpl. rewrite decide_True by done. done.
Qed.

Lemma createRunnerForThinker_registers_witness :
  ∃ w',
    createRunnerForThinker 0 5 (HERE 1) (emptyWorld ThinkerOwnedByRunner RunnerThinking) [] =
      Done tt w' ([] ++ [Lock mapsMutex; Unlock mapsMutex; PoolStart (mkProxy 0 true)]) ∧
    thinkerMap w' = <[5 := 0]> ∅ ∧
    runners w' 0 = mkRunner RunnerInitializing 5 ∧
    pool w' = [] ++ [mkProxy 0 true] ∧
    (∀ t, thinkers w' t = ThinkerOwnedByRunner).
Proof.
  apply (createRunnerForThinker_registers 0 5 (HERE 1)
           (emptyWorld ThinkerOwnedByRunner RunnerThinking) []).
  - reflexivity.
  - reflexivity.
Defined.

(** ** Running the monad one call at a time *)

Lemma bind_eq {A B} (m : M A) (f : A → M B) w tr : bind m f w tr = bindR (m w tr) f.
Proof. reflexivity. Qed.
Lemma ret_eq {A} (a : A) w tr : ret a w tr = Done a w tr.
Proof. reflexivity. Qed.
Lemma gets_eq {A} (f : World → A) w tr : gets f w tr = Done (f w) w tr.
Proof. reflexivity. Qed.
Lemma modify_eq f w tr : modify f w tr = Done tt (f w) tr.
Proof. reflexivity. Qed.
Lemma emit_eq e w tr : emit e w tr = Done tt w (tr ++ [e]).
Proof. reflexivity. Qed.
Lemma hopefully_eq cond cp w tr :
  hopefully cond cp w tr = if cond then Done tt w tr else Failed cp w tr.
Proof. reflexivity. Qed.
Lemma isPaused_eq r w tr :
  isPaused r w tr = Done (bool_decide (stateOf w r = RunnerPaused)) w tr.
Proof. reflexivity. Qed.
Lemma isCanceled_eq r w tr :
  isCanceled r w tr = Done (bool_decide (stateOf w r = RunnerCanceled)) w tr.
Proof. reflexivity. Qed.
Lemma isFinished_eq r w tr :
  isFinished r w tr = Done (bool_decide (stateOf w r = RunnerFinished)) w tr.
Proof. reflexivity. Qed.
Lemma forEach_cons {A} (x : A) l body w tr :
  forEach (x :: l) body w tr = bindR (body x w tr) (fun _ => forEach l body).
Proof. reflexivity. Qed.
Lemma hopefullyCurrentThreadIsManager_eq cur cp w tr :
  hopefullyCurrentThreadIsManager cur cp w tr =
  if decide (cur = thread w) then Done tt w tr else Failed cp w tr.
Proof.
  unfold hopefullyCurrentThreadIsManager, hopefullyThreadIsManager.
  rewrite bind_eq, gets_eq. simpl. rewrite hopefully_eq.
  by destruct (decide (cur = thread w));
    [rewrite bool_decide_eq_true_2|rewrite bool_decide_eq_false_2].
Qed.

Lemma hopefullyCurrentThreadIsNotManager_eq cur cp w tr :
  hopefullyCurrentThreadIsNotManager cur cp w tr =
  if decide (cur = thread w) then Failed cp w tr else Done tt w tr.
Proof.
  unfold hopefullyCurrentThreadIsNotManager, hopefullyThreadIsNotManager.
  rewrite bind_eq, gets_eq. simpl. rewrite hopefully_eq.
  by destruct (decide (cur = thread w));
    [rewrite bool_decide_eq_true_2|rewrite bool_decide_eq_false_2].
Qed.

(** Run the calls at the head of the goal, leaving the loop bodies alone. *)
Ltac mrun :=
  repeat first
    [ rewrite bind_eq | rewrite ret_eq | rewrite gets_eq | rewrite modify_eq
    | rewrite emit_eq | rewrite isPaused_eq | rewrite isCanceled_eq
    | rewrite isFinished_eq | rewrite forEach_cons
    | progress cbn [bindR] ].

Lemma set_state_stateOf r st w r' :
  stateOf (set_state r st w) r' = if decide (r' = r) then st else stateOf w r'.
Proof. unfold stateOf, set_state. simpl. by destruct (decide (r' = r)). Qed.

Lemma set_state_holder r st w r' :
  holder (runners (set_state r st w) r') = holder (runners w r').
Proof. unfold set_state. simpl. by destruct (decide (r' = r)) as [->|]. Qed.

Lemma requestResumeCore_eq r ok cp w tr :
  requestResumeCore r ok cp w tr =
  match stateOf w r with
  | RunnerPaused => Done tt (set_state r RunnerResuming w) (tr ++ [RequestResume r ok])
  | _ => if ok then Done tt w (tr ++ [RequestResume r ok])
         else Failed cp w (tr ++ [RequestResume r ok])
  end.
Proof. unfold requestResumeCore. mrun. by destruct (stateOf w r). Qed.

Lemma requestResumeButCanceledIsOkay_eq r cp w tr :
  requestResumeButCanceledIsOkay r cp w tr = requestResumeCore r true cp w tr.
Proof. reflexivity. Qed.

(** ** Resuming all thinkers *)

Lemma resume_loop cp (l : list (ThinkerId * RunnerId)) w tr :
  ∃ w' rs,
    forEach l (fun i => paused <- isPaused i.2 ;;
                        if paused then requestResumeButCanceledIsOkay i.2 cp else ret tt)
      w tr = Done tt w' (tr ++ map (fun r => RequestResume r true) rs) ∧
    NoDup rs ∧
    (∀ r, r ∈ rs ↔ r ∈ l.*2 ∧ stateOf w r = RunnerPaused) ∧
    (∀ r, stateOf w' r = if decide (r ∈ rs) then RunnerResuming else stateOf w r) ∧
    (∀ r, holder (runners w' r) = holder (runners w r)) ∧
    thinkerMap w' = thinkerMap w ∧ thinkers w' = thinkers w ∧ pool w' = pool w.
Proof.
  revert w tr. induction l as [|[t r0] l IH]; intros w tr.
  - exists w, []. simpl. unfold ret. rewrite app_nil_r.
    split_and!; try done.
    + constructor.
    + intros r. split; [by intros ?%elem_of_nil | by intros [?%elem_of_nil _]].
  - mrun. cbn [snd].
    destruct (decide (stateOf w r0 = RunnerPaused)) as [Hp|Hp].
    + rewrite bool_decide_eq_true_2 by done.
      rewrite requestResumeButCanceledIsOkay_eq, requestResumeCore_eq, Hp. mrun.
      destruct (IH (set_state r0 RunnerResuming w) (tr ++ [RequestResume r0 true]))
        as (w' & rs & -> & Hnd & Hin & Hst & Hh & Hm & Ht & Hpool).
      exists w', (r0 :: rs). simpl. rewrite <- app_assoc. simpl.
      assert (Hr0 : r0 ∉ rs).
      { intros [_ H]%Hin. rewrite set_state_stateOf, decide_True in H; done. }
      split_and!; try done.
      * by constructor.
      * intros r. rewrite elem_of_cons, Hin, set_state_stateOf.
        destruct (decide (r = r0)) as [->|Hne]; set_solver.
      * intros r. rewrite Hst, set_state_stateOf.
        destruct (decide (r = r0)) as [->|Hne].
        -- rewrite decide_False by done. rewrite decide_True; [done|set_solver].
        -- destruct (decide (r ∈ rs)); [rewrite decide_True|rewrite decide_False];
             set_solver.
      * intros r. by rewrite Hh, set_state_holder.
    + rewrite bool_decide_eq_false_2 by done. mrun.
      destruct (IH w tr) as (w' & rs & -> & Hnd & Hin & Hst & Hh & Hm & Ht & Hpool).
      exists w', rs. split_and!; try done.
      intros r. rewrite Hin, fmap_cons, elem_of_cons. simpl.
      split; [naive_solver|]. intros [[->|?] ?]; done.
Qed.

(** C8: on the controller thread [ensureThinkersResumed] returns, having
    asked to resume, under the maps mutex, exactly the runners that are
    values of the thinker map and were Paused, each once; these become
    Resuming, and the state of every other runner (Canceled or not, in the
    map or not) is what it was. *)
Theorem ensureThinkersResumed_exactly_paused cur cp w tr :
  cur = thread w →
  ∃ w' rs,
    ensureThinkersResumed cur cp w tr =
      Done tt w' (tr ++ [Lock mapsMutex] ++ map (fun r => RequestResume r true) rs
                     ++ [Unlock mapsMutex]) ∧
    NoDup rs ∧
    (∀ r, r ∈ rs ↔ (∃ t, thinkerMap w !! t = Some r) ∧ stateOf w r = RunnerPaused) ∧
    (∀ r, stateOf w' r = if decide (r ∈ rs) then RunnerResuming else stateOf w r) ∧
    (∀ r, holder (runners w' r) = holder (runners w r)) ∧
    thinkerMap w' = thinkerMap w ∧ thinkers w' = thinkers w.
Proof.
  intros ->. unfold ensureThinkersResumed.
  rewrite bind_eq, hopefullyCurrentThreadIsManager_eq, decide_True by done. mrun.
  destruct (resume_loop cp (map_to_list (thinkerMap w)) w (tr ++ [Lock mapsMutex]))
    as (w' & rs & -> & Hnd & Hin & Hst & Hh & Hm & Ht & _).
  exists w', rs. mrun. rewrite <- !app_assoc. simpl.
  split_and!; try done.
  intros r. rewrite Hin. apply and_iff_compat_r. rewrite list_elem_of_fmap. split.
  - intros ([t r'] & -> & H%elem_of_map_to_list). eauto.
  - intros [t H]. exists (t, r). by rewrite elem_of_map_to_list.
Qed.

Lemma ensureThinkersResumed_exactly_paused_witness :
  ∃ w' rs,
    ensureThinkersResumed 0 (HERE 1) (oneThinker ThinkerOwnedByRunner RunnerPaused) [] =
      Done tt w' ([] ++ [Lock mapsMutex] ++ map (fun r => RequestResume r true) rs
                     ++ [Unlock mapsMutex]) ∧
    NoDup rs ∧
    (∀ r, r ∈ rs ↔
          (∃ t, thinkerMap (oneThinker ThinkerOwnedByRunner RunnerPaused) !! t = Some r) ∧
          stateOf (oneThinker ThinkerOwnedByRunner RunnerPaused) r = RunnerPaused) ∧
    (∀ r, stateOf w' r =
          if decide (r ∈ rs) then RunnerResuming
          else stateOf (oneThinker ThinkerOwnedByRunner RunnerPaused) r) ∧
    (∀ r, holder (runners w' r) =
          holder (runners (oneThinker ThinkerOwnedByRunner RunnerPaused) r)) ∧
    thinkerMap w' = thinkerMap (oneThinker ThinkerOwnedByRunner RunnerPaused) ∧
    thinkers w' = thinkers (oneThinker ThinkerOwnedByRunner RunnerPaused).
Proof.
  apply (ensureThinkersResumed_exactly_paused 0 (HERE 1)
           (oneThinker ThinkerOwnedByRunner RunnerPaused) []).
  reflexivity.
Defined.

(** ** Destroying the manager *)

Lemma terminal_eq st :
  bool_decide (st = RunnerCanceled) || bool_decide (st = RunnerFinished) = terminal st.
Proof. by destruct st. Qed.

Lemma checkRunners_eq l anyRunners w tr :
  checkRunners l anyRunners w tr =
  if forallb (fun i => terminal (stateOf w i.2)) l
  then Done (match l with [] => anyRunners | _ => true end) w tr
  else Failed (HERE 342) w tr.
Proof.
  revert anyRunners. induction l as [|i l IH]; intros anyRunners; [done|].
  cbn [checkRunners forallb]. mrun. rewrite hopefully_eq, terminal_eq.
  destruct (terminal (stateOf w i.2)); cbn [bindR andb]; [|done].
  rewrite IH. destruct (forallb _ l); by destruct l.
Qed.

Lemma poolWaitForDone_eq w tr :
  poolWaitForDone w tr =
  match pool w with
  | [] => Done tt w (tr ++ [PoolWaitForDone])
  | _ => Blocked UntilPoolDone w (tr ++ [PoolWaitForDone])
           (fun w' => Done tt w' (tr ++ [PoolWaitForDone]))
  end.
Proof. unfold poolWaitForDone. mrun. unfold await. simpl. by destruct (pool w). Qed.

(** C9, as the claim states it, does not hold: with no runner registered the
    destructor returns while the pool still has work. *)
Lemma destructor_returns_with_pool_busy :
  ¬ (∀ cur w tr w' tr',
       destroyThinkerManager cur w tr = Done tt w' tr' → pool w' = []).
Proof.
  intros H.
  specialize (H 0 (set_pool (fun _ => [mkProxy 7 true]) (emptyWorld ThinkerFinished RunnerFinished))
                [] _ _ eq_refl).
  discriminate H.
Qed.

(** C9, amended: on the controller thread the destructor asserts, for every
    runner registered in the thinker map, that it is Canceled or Finished
    (and fails at line 342 if one is not); then, if at least one runner was
    registered, it waits for the pool to be done and returns only with the
    pool empty; if none was registered it returns at once and does not wait
    for the pool. *)
Theorem destroyThinkerManager_waits_if_any_runner cur w tr :
  cur = thread w →
  ((∃ t r, thinkerMap w !! t = Some r ∧ terminal (stateOf w r) = false) →
   destroyThinkerManager cur w tr = Failed (HERE 342) w (tr ++ [Lock mapsMutex])) ∧
  ((∀ t r, thinkerMap w !! t = Some r → terminal (stateOf w r) = true) →
   (thinkerMap w = ∅ →
    destroyThinkerManager cur w tr = Done tt w (tr ++ [Lock mapsMutex; Unlock mapsMutex])) ∧
   (thinkerMap w ≠ ∅ →
    Outcomes
      (fun _ w' tr' =>
         pool w' = [] ∧ tr' = tr ++ [Lock mapsMutex; Unlock mapsMutex; PoolWaitForDone])
      (fun _ _ _ => False)
      (fun c w' tr' =>
         c = UntilPoolDone ∧ w' = w ∧ pool w ≠ [] ∧
         tr' = tr ++ [Lock mapsMutex; Unlock mapsMutex; PoolWaitForDone])
      (destroyThinkerManager cur w tr))).
Proof.
  intros ->. unfold destroyThinkerManager.
  rewrite bind_eq, hopefullyCurrentThreadIsManager_eq, decide_True by done. mrun.
  rewrite checkRunners_eq. split.
  - intros (t & r & Hm & Hr).
    destruct (forallb _ _) eqn:E; [|done]. exfalso.
    rewrite forallb_forall in E.
    specialize (E (t, r)). rewrite <- list_elem_of_In, elem_of_map_to_list in E.
    simpl in E. rewrite E in Hr; done.
  - intros Hall.
    assert (E : forallb (fun i => terminal (stateOf w i.2)) (map_to_list (thinkerMap w)) = true).
    { apply forallb_forall. intros [t r]. rewrite <- list_elem_of_In, elem_of_map_to_list.
      apply Hall. }
    rewrite E. split.
    + intros ->. rewrite map_to_list_empty. mrun. by rewrite <- app_assoc.
    + intros Hne. destruct (map_to_list (thinkerMap w)) as [|i l] eqn:El.
      { by apply map_to_list_empty_iff in El. }
      mrun. rewrite poolWaitForDone_eq. rewrite <- !app_assoc. simpl.
      destruct (pool w) eqn:Ep; simpl.
      * done.
      * split; [done|]. intros w' Hr. split; [|done]. by destruct (pool w').
Qed.

Lemma destroyThinkerManager_waits_if_any_runner_witness :
  Outcomes
    (fun _ w' tr' =>
       pool w' = [] ∧ tr' = [] ++ [Lock mapsMutex; Unlock mapsMutex; PoolWaitForDone])
    (fun _ _ _ => False)
    (fun c w' tr' =>
       c = UntilPoolDone ∧
       w' = set_pool (fun _ => [mkProxy 1 true]) (oneThinker ThinkerOwnedByRunner RunnerFinished) ∧
       pool (set_pool (fun _ => [mkProxy 1 true]) (oneThinker ThinkerOwnedByRunner RunnerFinished)) ≠ [] ∧
       tr' = [] ++ [Lock mapsMutex; Unlock mapsMutex; PoolWaitForDone])
    (destroyThinkerManager 0
       (set_pool (fun _ => [mkProxy 1 true]) (oneThinker ThinkerOwnedByRunner RunnerFinished)) []).
Proof.
  refine (proj2 (proj2 (destroyThinkerManager_waits_if_any_runner 0
    (set_pool (fun _ => [mkProxy 1 true]) (oneThinker ThinkerOwnedByRunner RunnerFinished)) []
    eq_refl) _) _).
  - intros t r. simpl. intros _. reflexivity.
  - simpl. intros H. apply (f_equal (fun m => m !! 1)) in H.
    rewrite lookup_insert_eq, lookup_empty in H. discriminate H.
Defined.

(** ** Outcomes of composed calls *)




(** ** Pausing all thinkers *)





(** ** The push protocol *)

Lemma pushEach_eq runner l found w tr :
  pushEach runner l found w tr =
  Done (found || existsb (fun x => bool_decide (runner = Some x)) l) w
       (tr ++ map DoThreadPush l).
Proof.
  revert found tr. induction l as [|x l IH]; intros found tr.
  - simpl. unfold ret. by rewrite orb_false_r, app_nil_r.
  - cbn [pushEach]. unfold doThreadPushIfNecessary. mrun. rewrite IH.
    simpl. by rewrite orb_assoc, <- app_assoc.
Qed.

Lemma queued_Some r w : queued (Some r) w = true ↔ r ∈ runnerSetToPush w.
Proof.
  unfold queued. rewrite existsb_exists. split.
  - intros (x & Hx & Hd). apply bool_decide_eq_true in Hd as [= ->].
    by apply elem_of_elements, list_elem_of_In.
  - intros Hr. exists r. split; [by apply list_elem_of_In, elem_of_elements|].
    by apply bool_decide_eq_true.
Qed.

Lemma pushRounds_eq fuel runner w tr :
  pushRounds (S fuel) runner w tr =
  if queued runner w || bool_decide (runner = None)
  then Done tt (set_runnerSetToPush (fun _ => ∅) w)
         (tr ++ drain w ++ [Unlock pushThreadMutex])
  else Blocked (OnCondition threadsNeedPushing) (set_runnerSetToPush (fun _ => ∅) w)
         (tr ++ drain w ++ [Wait threadsNeedPushing])
         (fun w' => pushRounds fuel runner w' (tr ++ drain w ++ [Wait threadsNeedPushing])).
Proof.
  cbn [pushRounds]. mrun. rewrite pushEach_eq. mrun. unfold queued, drain. simpl.
  destruct (_ || _); mrun; rewrite <- !app_assoc; [done|].
  unfold condWait. cbn [bindR]. by rewrite <- !app_assoc.
Qed.

Lemma pushRounds_missing fuel r w tr :
  r ∉ runnerSetToPush w →
  pushRounds (S fuel) (Some r) w tr =
  Blocked (OnCondition threadsNeedPushing) (set_runnerSetToPush (fun _ => ∅) w)
    (tr ++ drain w ++ [Wait threadsNeedPushing])
    (fun w' => pushRounds fuel (Some r) w' (tr ++ drain w ++ [Wait threadsNeedPushing])).
Proof.
  intros Hr. rewrite pushRounds_eq.
  assert (queued (Some r) w = false) as ->.
  { apply not_true_is_false. by rewrite queued_Some. }
  by rewrite bool_decide_eq_false_2.
Qed.

Lemma pushRounds_found fuel runner w tr :
  runner = None ∨ (∃ r, runner = Some r ∧ r ∈ runnerSetToPush w) →
  pushRounds (S fuel) runner w tr =
  Done tt (set_runnerSetToPush (fun _ => ∅) w) (tr ++ drain w ++ [Unlock pushThreadMutex]).
Proof.
  intros H. rewrite pushRounds_eq.
  destruct H as [->|(r & -> & Hr)].
  - by rewrite orb_true_r.
  - apply queued_Some in Hr. by rewrite Hr.
Qed.

Lemma processThreadPushesUntil_eq fuel cur runner w tr :
  cur = thread w →
  processThreadPushesUntil fuel cur runner w tr =
  pushRounds fuel runner w (tr ++ [Lock pushThreadMutex]).
Proof.
  intros ->. unfold processThreadPushesUntil.
  rewrite bind_eq, hopefullyCurrentThreadIsManager_eq, decide_True by done. by mrun.
Qed.

Lemma enqueue_cleared batch w :
  runnerSetToPush (enqueue batch (set_runnerSetToPush (fun _ => ∅) w)) = list_to_set batch.
Proof. simpl. set_solver. Qed.

Lemma pushRounds_until r last batches :
  r ∈ last → Forall (fun b => r ∉ b) batches →
  ∀ fuel w tr, r ∉ runnerSetToPush w →
    ∃ w' tr',
      resumeAll (map enqueue (batches ++ [last]))
        (pushRounds (length batches + 2 + fuel) (Some r) w tr) = Done tt w' tr' ∧
      runnerSetToPush w' = ∅ ∧ DoThreadPush r ∈ tr'.
Proof.
  intros Hlast. induction 1 as [|b batches Hb _ IH]; intros fuel w tr Hr.
  - cbn [length app map resumeAll Nat.add]. rewrite pushRounds_missing by done.
    cbn [resume ready]. rewrite pushRounds_found.
    2:{ right. exists r. split; [done|]. rewrite enqueue_cleared.
        by apply elem_of_list_to_set. }
    eexists _, _. split; [done|]. split; [done|].
    unfold drain. rewrite enqueue_cleared, !elem_of_app.
    right. left. left. apply (list_elem_of_fmap_2 DoThreadPush).
    by apply elem_of_elements, elem_of_list_to_set.
  - cbn [length app map resumeAll Nat.add]. rewrite pushRounds_missing by done.
    cbn [resume ready]. apply IH.
    rewrite enqueue_cleared. by rewrite elem_of_list_to_set.
Qed.

Lemma resumeAll_not_Blocked {A} envs (r : Result A) :
  (∀ c w tr k, r ≠ Blocked c w tr k) → resumeAll envs r = r.
Proof.
  intros Hr. induction envs as [|env envs IH]; [done|].
  simpl. by destruct r; [..|destruct (Hr c w tr k)].
Qed.

Lemma pushRounds_waits r batches :
  Forall (fun b => r ∉ b) batches →
  ∀ fuel w tr, r ∉ runnerSetToPush w →
    ∀ w' tr',
      resumeAll (map enqueue batches) (pushRounds fuel (Some r) w tr) ≠ Done tt w' tr'.
Proof.
  induction 1 as [|b batches Hb _ IH]; intros fuel w tr Hr w' tr'.
  - destruct fuel as [|fuel]; [done|]. cbn [map resumeAll].
    by rewrite pushRounds_missing.
  - destruct fuel as [|fuel].
    + by rewrite resumeAll_not_Blocked.
    + cbn [map resumeAll]. rewrite pushRounds_missing by done.
      cbn [resume ready]. apply IH.
      rewrite enqueue_cleared. by rewrite elem_of_list_to_set.
Qed.

(** C6: the push protocol.  A worker calling [waitForPushToThread] locks
    the push mutex, puts its runner into the queue, wakes one waiter of
    needs-push, emits the queued notification and is suspended on
    were-pushed.  The controller in [processThreadPushesUntil] pushes every
    queued runner, clears the queue and broadcasts were-pushed; with a null
    target, or a target that was in the queue, it returns after this one
    round; with a target that was not, it waits on needs-push and does
    another round, so that it has not returned as long as the target was not
    queued, and returns, the target pushed and the queue empty, after the
    round in which it was. *)
Theorem push_protocol :
  (∀ cur runner w tr, cur ≠ thread w →
     ∃ k, waitForPushToThread cur runner w tr =
            Blocked (OnCondition threadsWerePushed)
              (set_runnerSetToPush (fun s => {[runner]} ∪ s) w)
              (tr ++ [Lock pushThreadMutex; WakeOne threadsNeedPushing;
                      EmitPushToThreadMayBeNeeded; Wait threadsWerePushed]) k ∧
          ∀ w', k w' =
                Done tt w' (tr ++ [Lock pushThreadMutex; WakeOne threadsNeedPushing;
                                   EmitPushToThreadMayBeNeeded; Wait threadsWerePushed;
                                   Unlock pushThreadMutex])) ∧
  (∀ fuel cur runner w tr, cur = thread w →
     runner = None ∨ (∃ r, runner = Some r ∧ r ∈ runnerSetToPush w) →
     processThreadPushesUntil (S fuel) cur runner w tr =
       Done tt (set_runnerSetToPush (fun _ => ∅) w)
         ((tr ++ [Lock pushThreadMutex]) ++ drain w ++ [Unlock pushThreadMutex])) ∧
  (∀ fuel cur r w tr, cur = thread w → r ∉ runnerSetToPush w →
     processThreadPushesUntil (S fuel) cur (Some r) w tr =
       Blocked (OnCondition threadsNeedPushing) (set_runnerSetToPush (fun _ => ∅) w)
         ((tr ++ [Lock pushThreadMutex]) ++ drain w ++ [Wait threadsNeedPushing])
         (fun w' => pushRounds fuel (Some r) w'
                      ((tr ++ [Lock pushThreadMutex]) ++ drain w
                         ++ [Wait threadsNeedPushing]))) ∧
  (∀ cur r w tr batches last, cur = thread w → r ∉ runnerSetToPush w →
     Forall (fun b => r ∉ b) batches → r ∈ last →
     (∀ fuel w' tr',
        resumeAll (map enqueue batches)
          (processThreadPushesUntil fuel cur (Some r) w tr) ≠ Done tt w' tr') ∧
     (∀ fuel, ∃ w' tr',
        resumeAll (map enqueue (batches ++ [last]))
          (processThreadPushesUntil (length batches + 2 + fuel) cur (Some r) w tr)
        = Done tt w' tr' ∧
        runnerSetToPush w' = ∅ ∧ DoThreadPush r ∈ tr')).
Proof.
  split_and!.
  - intros cur runner w tr Hne. unfold waitForPushToThread.
    rewrite bind_eq, hopefullyCurrentThreadIsNotManager_eq, decide_False by done.
    mrun. unfold condWait. cbn [bindR]. rewrite <- !app_assoc. eexists. split; [done|].
    intros w'. mrun. by rewrite <- !app_assoc.
  - intros fuel cur runner w tr Hc Hr.
    rewrite processThreadPushesUntil_eq by done. by apply pushRounds_found.
  - intros fuel cur r w tr Hc Hr.
    rewrite processThreadPushesUntil_eq by done. by apply pushRounds_missing.
  - intros cur r w tr batches last Hc Hr Hb Hl. split.
    + intros fuel w' tr'. rewrite processThreadPushesUntil_eq by done.
      by apply pushRounds_waits.
    + intros fuel. rewrite processThreadPushesUntil_eq by done.
      by apply pushRounds_until.
Qed.

Lemma push_protocol_witness :
  (∀ fuel w' tr',
     resumeAll (map enqueue [[3]])
       (processThreadPushesUntil fuel 0 (Some 4)
          (set_runnerSetToPush (fun _ => {[1; 2]})
             (emptyWorld ThinkerOwnedByRunner RunnerInitializing)) [])
     ≠ Done tt w' tr') ∧
  (∀ fuel, ∃ w' tr',
     resumeAll (map enqueue ([[3]] ++ [[4; 5]]))
       (processThreadPushesUntil (length [[3]] + 2 + fuel) 0 (Some 4)
          (set_runnerSetToPush (fun _ => {[1; 2]})
             (emptyWorld ThinkerOwnedByRunner RunnerInitializing)) [])
     = Done tt w' tr' ∧
     runnerSetToPush w' = ∅ ∧ DoThreadPush 4 ∈ tr').
Proof.
  apply (proj2 (proj2 (proj2 push_protocol)) 0 4
           (set_runnerSetToPush (fun _ => {[1; 2]})
              (emptyWorld ThinkerOwnedByRunner RunnerInitializing)) [] [[3]] [4; 5]).
  - reflexivity.
  - simpl. set_solver.
  - repeat constructor. set_solver.
  - set_solver.
Defined.

(** ** Canceling a thinker and waiting *)

Lemma requestCancelCore_eq r ok cp w tr :
  requestCancelCore r ok cp w tr =
  match stateOf w r with
  | RunnerInitializing | RunnerThinking | RunnerPausing | RunnerResuming =>
      Done tt (set_state r RunnerCanceling w) (tr ++ [RequestCancel r ok])
  | RunnerCanceling => Done tt w (tr ++ [RequestCancel r ok])
  | RunnerPaused | RunnerFinished =>
      Done tt (set_state r RunnerCanceled w) (tr ++ [RequestCancel r ok])
  | RunnerCanceled =>
      if ok then Done tt w (tr ++ [RequestCancel r ok])
      else Failed cp w (tr ++ [RequestCancel r ok])
  end.
Proof. unfold requestCancelCore. mrun. by destruct (stateOf w r). Qed.

(** A request that accepts a canceled runner is made without an assertion
    from every state of the runner, and a second request after it changes
    nothing. *)
Lemma requestCancelCore_twice r cp w tr :
  ∃ w1,
    requestCancelCore r true cp w tr = Done tt w1 (tr ++ [RequestCancel r true]) ∧
    requestCancelCore r true cp w1 (tr ++ [RequestCancel r true]) =
      Done tt w1 ((tr ++ [RequestCancel r true]) ++ [RequestCancel r true]).
Proof.
  rewrite requestCancelCore_eq.
  destruct (stateOf w r) eqn:E; (eexists; split; [reflexivity|]);
    rewrite requestCancelCore_eq, ?set_state_stateOf, ?decide_True, ?E by done;
    done.
Qed.

Lemma waitForFinished_eq r cp w tr :
  waitForFinished r cp w tr =
  if terminal (stateOf w r) then Done tt w (tr ++ [WaitForFinished r])
  else Blocked (UntilFinished r) w (tr ++ [WaitForFinished r])
         (fun w' => Done tt w' (tr ++ [WaitForFinished r])).
Proof. unfold waitForFinished. mrun. unfold await. simpl. by destruct (terminal _). Qed.

Lemma requestAndWaitForCancel_no_runner thinker w tr :
  thinkerMap w !! thinker = None →
  requestAndWaitForCancelButAlreadyCanceledIsOkay thinker w tr =
  if decide (thinkers w thinker = ThinkerOwnedByRunner)
  then Failed (HERE 169) w (tr ++ [Lock mapsMutex])
  else Done tt (set_thinker thinker ThinkerCanceled w)
         (tr ++ [Lock mapsMutex] ++ [Unlock mapsMutex]).
Proof.
  intros Hn. unfold requestAndWaitForCancelButAlreadyCanceledIsOkay.
  rewrite bind_eq, maybeGetRunnerForThinker_eq, Hn.
  destruct (decide _); [done|]. mrun. rewrite hopefully_eq. simpl.
  by rewrite decide_True.
Qed.

Lemma line194_eq thinker w tr :
  (st <- gets (fun w => thinkers w thinker) ;;
   hopefully (bool_decide (st = ThinkerCanceled)) (HERE 194)) w tr =
  if decide (thinkers w thinker = ThinkerCanceled)
  then Done tt w tr else Failed (HERE 194) w tr.
Proof.
  mrun. rewrite hopefully_eq.
  by destruct (decide _); [rewrite bool_decide_eq_true_2|rewrite bool_decide_eq_false_2].
Qed.

Lemma requestAndWaitForCancel_runner thinker r w tr :
  thinkerMap w !! thinker = Some r →
  requestAndWaitForCancelButAlreadyCanceledIsOkay thinker w tr =
  match stateOf w r with
  | RunnerInitializing | RunnerThinking | RunnerPausing | RunnerResuming =>
      Blocked (UntilFinished r) (set_state r RunnerCanceling w)
        (tr ++ [Lock mapsMutex; Unlock mapsMutex; RequestCancel r true; WaitForFinished r])
        (fun w' =>
           (st <- gets (fun w => thinkers w thinker) ;;
            hopefully (bool_decide (st = ThinkerCanceled)) (HERE 194)) w'
             (tr ++ [Lock mapsMutex; Unlock mapsMutex; RequestCancel r true;
                     WaitForFinished r]))
  | RunnerCanceling =>
      Blocked (UntilFinished r) w
        (tr ++ [Lock mapsMutex; Unlock mapsMutex; RequestCancel r true; WaitForFinished r])
        (fun w' =>
           (st <- gets (fun w => thinkers w thinker) ;;
            hopefully (bool_decide (st = ThinkerCanceled)) (HERE 194)) w'
             (tr ++ [Lock mapsMutex; Unlock mapsMutex; RequestCancel r true;
                     WaitForFinished r]))
  | RunnerPaused | RunnerFinished =>
      (st <- gets (fun w => thinkers w thinker) ;;
       hopefully (bool_decide (st = ThinkerCanceled)) (HERE 194))
        (set_state r RunnerCanceled w)
        (tr ++ [Lock mapsMutex; Unlock mapsMutex; RequestCancel r true; WaitForFinished r])
  | RunnerCanceled =>
      (st <- gets (fun w => thinkers w thinker) ;;
       hopefully (bool_decide (st = ThinkerCanceled)) (HERE 194)) w
        (tr ++ [Lock mapsMutex; Unlock mapsMutex; RequestCancel r true; WaitForFinished r])
  end.
Proof.
  intros Hr. unfold requestAndWaitForCancelButAlreadyCanceledIsOkay.
  rewrite bind_eq, maybeGetRunnerForThinker_eq, Hr. cbn [bindR].
  rewrite 2!bind_eq. unfold requestCancelButAlreadyCanceledIsOkay.
  rewrite requestCancelCore_eq.
  destruct (stateOf w r) eqn:E; cbn [bindR]; rewrite <- ?app_assoc; try done;
    rewrite waitForFinished_eq, ?set_state_stateOf, ?decide_True, ?E by done;
    cbn [terminal bindR]; by rewrite <- !app_assoc.
Qed.

(** What the call does as a whole.  If the lookup finds no runner (the
    thinker being Canceled or Finished), the thinker is marked Canceled
    directly and the call returns.  Wherever the call returns, the thinker
    is Canceled, however the other threads behave while it waits.  And where
    the thinker is Canceled and has no runner or a Canceled one (as after a
    first call that returned), a call returns and changes nothing. *)
Lemma requestAndWaitForCancel_returns thinker w tr :
  (thinkerMap w !! thinker = None → thinkers w thinker ≠ ThinkerOwnedByRunner →
   requestAndWaitForCancelButAlreadyCanceledIsOkay thinker w tr =
     Done tt (set_thinker thinker ThinkerCanceled w)
       (tr ++ [Lock mapsMutex; Unlock mapsMutex])) ∧
  Outcomes (fun _ w1 _ => thinkers w1 thinker = ThinkerCanceled)
           (fun _ _ _ => True) (fun _ _ _ => True)
           (requestAndWaitForCancelButAlreadyCanceledIsOkay thinker w tr) ∧
  (∀ w1 tr1,
     thinkers w1 thinker = ThinkerCanceled →
     (∀ r, thinkerMap w1 !! thinker = Some r → stateOf w1 r = RunnerCanceled) →
     ∃ w2 tr2,
       requestAndWaitForCancelButAlreadyCanceledIsOkay thinker w1 tr1 = Done tt w2 tr2 ∧
       thinkerMap w2 = thinkerMap w1 ∧ (∀ t, thinkers w2 t = thinkers w1 t) ∧
       runners w2 = runners w1).
Proof.
  split_and!.
  - intros Hn Ho. rewrite requestAndWaitForCancel_no_runner by done.
    by rewrite decide_False.
  - destruct (thinkerMap w !! thinker) as [r|] eqn:Hm.
    + rewrite requestAndWaitForCancel_runner with (r := r) by done.
      destruct (stateOf w r); try done;
        try (split; [done|]; intros w' _); rewrite line194_eq;
        by destruct (decide _).
    + rewrite requestAndWaitForCancel_no_runner by done.
      destruct (decide _); [done|]. simpl. by rewrite decide_True.
  - intros w1 tr1 Hc Hrun. destruct (thinkerMap w1 !! thinker) as [r|] eqn:Hm.
    + rewrite requestAndWaitForCancel_runner with (r := r) by done.
      rewrite (Hrun r eq_refl), line194_eq, decide_True by done.
      by eexists _, _.
    + rewrite requestAndWaitForCancel_no_runner by done.
      rewrite decide_False by (by rewrite Hc).
      eexists _, _. split; [done|]. split; [done|]. split; [|done].
      intros t. simpl. by destruct (decide (t = thinker)) as [->|].
Qed.

(** C2: [requestAndWaitForCancelButAlreadyCanceledIsOkay] evaluated where it
    does not reach its postcondition.  The thinker is registered and
    Owned-By-Runner.  Lines 189-193 never write the thinker's state.  If the
    runner is Paused or Finished, the request makes it Canceled and the wait
    returns at once; if it is Canceled already, the request is accepted and
    the wait returns at once: either way the thinker is still
    Owned-By-Runner, and the call fails its own assertion at line 194.  For
    every other state of the runner the call waits, and it fails the same
    assertion when it goes on in a world in which the runner has reached
    Finished or Canceled and the thinker's state has not yet been set to
    Canceled. *)
Theorem requestAndWaitForCancel_fails_line194 thinker r w tr :
  thinkerMap w !! thinker = Some r →
  thinkers w thinker = ThinkerOwnedByRunner →
  (stateOf w r = RunnerPaused ∨ stateOf w r = RunnerFinished →
   requestAndWaitForCancelButAlreadyCanceledIsOkay thinker w tr =
     Failed (HERE 194) (set_state r RunnerCanceled w)
       (tr ++ [Lock mapsMutex; Unlock mapsMutex; RequestCancel r true;
               WaitForFinished r])) ∧
  (stateOf w r = RunnerCanceled →
   requestAndWaitForCancelButAlreadyCanceledIsOkay thinker w tr =
     Failed (HERE 194) w
       (tr ++ [Lock mapsMutex; Unlock mapsMutex; RequestCancel r true;
               WaitForFinished r])) ∧
  (terminal (stateOf w r) = false → stateOf w r ≠ RunnerPaused →
   ∀ w', terminal (stateOf w' r) = true → thinkers w' thinker ≠ ThinkerCanceled →
     resume (fun _ => w') (requestAndWaitForCancelButAlreadyCanceledIsOkay thinker w tr) =
     Failed (HERE 194) w'
       (tr ++ [Lock mapsMutex; Unlock mapsMutex; RequestCancel r true;
               WaitForFinished r])).
Proof.
  intros Hr Ho. rewrite requestAndWaitForCancel_runner with (r := r) by done.
  assert (Hne : thinkers w thinker ≠ ThinkerCanceled) by (by rewrite Ho).
  split_and!.
  - intros [E|E]; rewrite E, line194_eq; by rewrite decide_False.
  - intros E. rewrite E, line194_eq. by rewrite decide_False.
  - intros Ht Hp w' Ht' Hc'.
    destruct (stateOf w r); try done; simpl; rewrite Ht', line194_eq;
      by rewrite decide_False.
Qed.

Lemma requestAndWaitForCancel_fails_line194_witness :
  requestAndWaitForCancelButAlreadyCanceledIsOkay 1
    (oneThinker ThinkerOwnedByRunner RunnerPaused) [] =
  Failed (HERE 194) (set_state 1 RunnerCanceled (oneThinker ThinkerOwnedByRunner RunnerPaused))
    ([] ++ [Lock mapsMutex; Unlock mapsMutex; RequestCancel 1 true; WaitForFinished 1]).
Proof.
  apply (proj1 (requestAndWaitForCancel_fails_line194 1 1
                  (oneThinker ThinkerOwnedByRunner RunnerPaused) [] eq_refl eq_refl)).
  left. reflexivity.
Defined.

(** ** Ensuring a thinker is finished *)

Lemma waitForResume_eq r cp w tr :
  waitForResume r cp w tr =
  if ready (UntilResumed r) w then Done tt w (tr ++ [WaitForResume r])
  else Blocked (UntilResumed r) w (tr ++ [WaitForResume r])
         (fun w' => Done tt w' (tr ++ [WaitForResume r])).
Proof. unfold waitForResume. mrun. unfold await. by destruct (ready _ _). Qed.

Lemma ensureThinkerFinished_no_runner cur thinker w tr :
  cur = thread w → thinkerMap w !! thinker = None →
  ensureThinkerFinished cur thinker w tr =
  match thinkers w thinker with
  | ThinkerFinished => Done tt w (tr ++ [Lock mapsMutex; Unlock mapsMutex])
  | ThinkerCanceled => Failed (HERE 220) w (tr ++ [Lock mapsMutex; Unlock mapsMutex])
  | ThinkerOwnedByRunner => Failed (HERE 169) w (tr ++ [Lock mapsMutex])
  end.
Proof.
  intros -> Hn. unfold ensureThinkerFinished.
  rewrite bind_eq, hopefullyCurrentThreadIsManager_eq, decide_True by done.
  cbn [bindR]. rewrite bind_eq, maybeGetRunnerForThinker_eq, Hn.
  destruct (thinkers w thinker) eqn:E; simpl; try done;
    mrun; by rewrite hopefully_eq, E.
Qed.

Lemma lines216_220 thinker r w tr :
  bindR
    (bindR (Done tt w tr)
       (fun _ => finished <- isFinished r ;;
                 hopefully finished (HERE 216) ;;
                 modify (set_thinker thinker ThinkerFinished)))
    (fun _ => st <- gets (fun w0 => thinkers w0 thinker) ;;
              hopefully (bool_decide (st = ThinkerFinished)) (HERE 220))
  = finishedOrFailed thinker r tr w.
Proof.
  unfold finishedOrFailed. mrun. rewrite hopefully_eq.
  destruct (decide (stateOf w r = RunnerFinished)).
  - rewrite bool_decide_eq_true_2 by done. mrun. rewrite hopefully_eq. simpl.
    by rewrite decide_True.
  - by rewrite bool_decide_eq_false_2.
Qed.

Lemma lines215_220 thinker r w tr :
  Finishing thinker r (tr ++ [WaitForFinished r]) w
    (bindR
       (bindR (waitForFinished r (HERE 215) w tr)
          (fun _ => finished <- isFinished r ;;
                    hopefully finished (HERE 216) ;;
                    modify (set_thinker thinker ThinkerFinished)))
       (fun _ => st <- gets (fun w0 => thinkers w0 thinker) ;;
                 hopefully (bool_decide (st = ThinkerFinished)) (HERE 220))).
Proof.
  rewrite waitForFinished_eq. unfold Finishing.
  destruct (terminal (stateOf w r)).
  - apply lines216_220.
  - cbn [bindR]. eexists. split; [reflexivity|].
    intros w'. apply lines216_220.
Qed.

Lemma requestResume_eq r cp w tr :
  requestResume r cp w tr = requestResumeCore r false cp w tr.
Proof. reflexivity. Qed.

(** What the call does, by the entry of the thinker in the map and the state
    of its runner.  On the controller thread, if the thinker has no runner,
    [ensureThinkerFinished] asserts that the thinker is Finished.  Otherwise
    it asserts that the runner is not Canceled; if the runner is Paused it
    requests a resume and waits for it; it then waits until the runner is
    Finished or Canceled and asserts that it is Finished: if so it sets the
    thinker's state to Finished and returns, and if not the assertion of
    line 216 fails. *)
Lemma ensureThinkerFinished_outcome cur thinker w tr :
  cur = thread w →
  match thinkerMap w !! thinker with
  | None =>
      ensureThinkerFinished cur thinker w tr =
      match thinkers w thinker with
      | ThinkerFinished => Done tt w (tr ++ [Lock mapsMutex; Unlock mapsMutex])
      | ThinkerCanceled => Failed (HERE 220) w (tr ++ [Lock mapsMutex; Unlock mapsMutex])
      | ThinkerOwnedByRunner => Failed (HERE 169) w (tr ++ [Lock mapsMutex])
      end
  | Some r =>
      match stateOf w r with
      | RunnerCanceled =>
          ensureThinkerFinished cur thinker w tr =
          Failed (HERE 205) w (tr ++ [Lock mapsMutex; Unlock mapsMutex])
      | RunnerPaused =>
          Suspended (ensureThinkerFinished cur thinker w tr)
            (UntilResumed r) (set_state r RunnerResuming w)
            (tr ++ [Lock mapsMutex; Unlock mapsMutex; RequestResume r false;
                    WaitForResume r])
            (Finishing thinker r
               (tr ++ [Lock mapsMutex; Unlock mapsMutex; RequestResume r false;
                       WaitForResume r; WaitForFinished r]))
      | _ =>
          Finishing thinker r
            (tr ++ [Lock mapsMutex; Unlock mapsMutex; WaitForFinished r]) w
            (ensureThinkerFinished cur thinker w tr)
      end
  end.
Proof.
  intros Hc. destruct (thinkerMap w !! thinker) as [r|] eqn:Hr.
  2:{ by apply ensureThinkerFinished_no_runner. }
  subst cur. unfold ensureThinkerFinished.
  rewrite bind_eq, hopefullyCurrentThreadIsManager_eq, decide_True by done.
  cbn [bindR]. rewrite bind_eq, maybeGetRunnerForThinker_eq, Hr. cbn [bindR].
  mrun. rewrite hopefully_eq.
  assert (Hgo : ∀ T,
    T = tr ++ [Lock mapsMutex; Unlock mapsMutex] →
    Finishing thinker r (tr ++ [Lock mapsMutex; Unlock mapsMutex; WaitForFinished r]) w
      (bindR
         (bindR (ret () w T)
            (fun _ => waitForFinished r (HERE 215) ;;
                      finished <- isFinished r ;;
                      hopefully finished (HERE 216) ;;
                      modify (set_thinker thinker ThinkerFinished)))
         (fun _ => st <- gets (fun w0 => thinkers w0 thinker) ;;
                   hopefully (bool_decide (st = ThinkerFinished)) (HERE 220)))).
  { intros T ->. mrun.
    replace (tr ++ [Lock mapsMutex; Unlock mapsMutex; WaitForFinished r])
      with ((tr ++ [Lock mapsMutex; Unlock mapsMutex]) ++ [WaitForFinished r])
      by (by rewrite <- app_assoc).
    apply lines215_220. }
  destruct (stateOf w r) eqn:E; simpl; try done; mrun; rewrite E;
    try (rewrite bool_decide_eq_false_2 by done; by apply Hgo).
  rewrite bool_decide_eq_true_2 by done.
  mrun. rewrite requestResume_eq, requestResumeCore_eq, E. cbn [bindR].
  rewrite waitForResume_eq. simpl. rewrite set_state_stateOf, decide_True by done.
  cbn [bindR]. rewrite <- !app_assoc. simpl.
  eexists. split; [reflexivity|]. intros w1. cbn beta. cbn [bindR]. mrun.
  replace (tr ++ [Lock mapsMutex; Unlock mapsMutex; RequestResume r false;
                  WaitForResume r; WaitForFinished r])
    with ((tr ++ [Lock mapsMutex; Unlock mapsMutex; RequestResume r false;
                  WaitForResume r]) ++ [WaitForFinished r])
    by (by rewrite <- app_assoc).
  apply lines215_220.
Qed.

(** C3: [ensureThinkerFinished] evaluated where the runner is canceled
    concurrently.  On the controller thread, for a registered runner that
    passed the not-Canceled check of line 205: if the runner is canceled
    while the call waits for it to finish (line 215), or while the call waits
    for the resume it requested of a Paused runner (line 212), the call goes
    on with a Canceled runner and fails its own assertion
    [hopefully(runner->isFinished())] at line 216: it does not return, and
    the thinker's state is not set to Finished.  And the request of line
    211, made on a runner that has been canceled since the check of line 210,
    fails at line 211. *)
Theorem ensureThinkerFinished_canceled_meanwhile cur thinker r w tr :
  cur = thread w → thinkerMap w !! thinker = Some r →
  ∀ w', stateOf w' r = RunnerCanceled →
    (terminal (stateOf w r) = false → stateOf w r ≠ RunnerPaused →
     resume (fun _ => w') (ensureThinkerFinished cur thinker w tr) =
     Failed (HERE 216) w'
       (tr ++ [Lock mapsMutex; Unlock mapsMutex; WaitForFinished r])) ∧
    (stateOf w r = RunnerPaused →
     resume (fun _ => w') (ensureThinkerFinished cur thinker w tr) =
     Failed (HERE 216) w'
       (tr ++ [Lock mapsMutex; Unlock mapsMutex; RequestResume r false;
               WaitForResume r; WaitForFinished r])) ∧
    requestResume r (HERE 211) w' tr =
      Failed (HERE 211) w' (tr ++ [RequestResume r false]).
Proof.
  intros Hc Hr w' Hw'.
  pose proof (ensureThinkerFinished_outcome cur thinker w tr Hc) as H.
  rewrite Hr in H.
  assert (Hf : ∀ T, finishedOrFailed thinker r T w' = Failed (HERE 216) w' T).
  { intros T. unfold finishedOrFailed. rewrite decide_False; [done|]. by rewrite Hw'. }
  split_and!.
  - intros Ht Hp.
    assert (HF : Finishing thinker r
                   (tr ++ [Lock mapsMutex; Unlock mapsMutex; WaitForFinished r]) w
                   (ensureThinkerFinished cur thinker w tr)).
    { revert H Ht Hp. by destruct (stateOf w r). }
    unfold Finishing in HF. rewrite Ht in HF. destruct HF as (k & -> & Hk).
    simpl. rewrite Hw'. simpl. by rewrite Hk.
  - intros E. rewrite E in H. destruct H as (k & -> & Hk).
    simpl. rewrite Hw'. specialize (Hk w'). unfold Finishing in Hk.
    rewrite Hw' in Hk. simpl in Hk. by rewrite Hk.
  - rewrite requestResume_eq, requestResumeCore_eq. by rewrite Hw'.
Qed.

Lemma ensureThinkerFinished_canceled_meanwhile_witness :
  resume (fun _ => set_state 1 RunnerCanceled (oneThinker ThinkerOwnedByRunner RunnerThinking))
    (ensureThinkerFinished 0 1 (oneThinker ThinkerOwnedByRunner RunnerThinking) []) =
  Failed (HERE 216)
    (set_state 1 RunnerCanceled (oneThinker ThinkerOwnedByRunner RunnerThinking))
    ([] ++ [Lock mapsMutex; Unlock mapsMutex; WaitForFinished 1]).
Proof.
  refine (proj1 (ensureThinkerFinished_canceled_meanwhile 0 1 1
            (oneThinker ThinkerOwnedByRunner RunnerThinking) [] eq_refl eq_refl
            (set_state 1 RunnerCanceled (oneThinker ThinkerOwnedByRunner RunnerThinking))
            eq_refl) _ _).
  - reflexivity.
  - discriminate.
Defined.

(** * Further properties of the code *)

(** ** The thread map *)

Lemma maybeGetRunnerForThread_eq th (tm : gmap ThreadId RunnerId) w tr :
  maybeGetRunnerForThread th tm w tr =
  Done (tm !! th) w (tr ++ [Lock mapsMutex; Unlock mapsMutex]).
Proof. unfold maybeGetRunnerForThread. mrun. by rewrite <- app_assoc. Qed.

Lemma addToThreadMap_eq runner th (tm : gmap ThreadId RunnerId) w tr :
  addToThreadMap runner th tm w tr =
  match tm !! th with
  | None => Done (<[th := runner]> tm) w (tr ++ [Lock mapsMutex; Unlock mapsMutex])
  | Some _ => Failed (HERE 274) w (tr ++ [Lock mapsMutex])
  end.
Proof.
  unfold addToThreadMap. mrun. rewrite hopefully_eq.
  destruct (tm !! th) as [r|]; simpl; [done|]. mrun. by rewrite <- app_assoc.
Qed.

Lemma removeFromThreadMap_eq runner th (tm : gmap ThreadId RunnerId) w tr :
  removeFromThreadMap runner th tm w tr =
  match tm !! th with
  | Some _ => Done (delete th tm) w (tr ++ [Lock mapsMutex; Unlock mapsMutex])
  | None => Failed (HERE 285) w (tr ++ [Lock mapsMutex])
  end.
Proof.
  unfold removeFromThreadMap. mrun. rewrite hopefully_eq.
  destruct (tm !! th) as [r|]; simpl; [|done]. mrun. by rewrite <- app_assoc.
Qed.

Lemma hopefullyThreadIsThinker_eq th cp (tm : gmap ThreadId RunnerId) w tr :
  hopefullyThreadIsThinker th cp tm w tr =
  match tm !! th with
  | Some _ => Done tt w (tr ++ [Lock mapsMutex; Unlock mapsMutex])
  | None => Failed cp w (tr ++ [Lock mapsMutex; Unlock mapsMutex])
  end.
Proof.
  unfold hopefullyThreadIsThinker.
  rewrite bind_eq, maybeGetRunnerForThread_eq. cbn [bindR]. rewrite hopefully_eq.
  by destruct (tm !! th).
Qed.

Lemma getThinkerForThreadMaybeNull_eq th (tm : gmap ThreadId RunnerId) w tr :
  getThinkerForThreadMaybeNull th tm w tr =
  Done ((fun r => holder (runners w r)) <$> tm !! th) w
       (tr ++ [Lock mapsMutex; Unlock mapsMutex]).
Proof.
  unfold getThinkerForThreadMaybeNull.
  rewrite bind_eq, maybeGetRunnerForThread_eq. cbn [bindR].
  destruct (tm !! th); by mrun.
Qed.

(** X1: a thread that is not in the thread map can be registered, and from
    then on the lookup by thread finds the runner registered for it, while
    the lookups of all other threads are what they were. *)
Theorem addToThreadMap_then_lookup runner th (tm : gmap ThreadId RunnerId) w tr :
  tm !! th = None →
  ∃ tm',
    addToThreadMap runner th tm w tr =
      Done tm' w (tr ++ [Lock mapsMutex; Unlock mapsMutex]) ∧
    ∀ th' w' tr',
      maybeGetRunnerForThread th' tm' w' tr' =
      Done (if decide (th' = th) then Some runner else tm !! th') w'
           (tr' ++ [Lock mapsMutex; Unlock mapsMutex]).
Proof.
  intros Hn. exists (<[th := runner]> tm). rewrite addToThreadMap_eq, Hn.
  split; [done|]. intros th' w' tr'. rewrite maybeGetRunnerForThread_eq.
  destruct (decide (th' = th)) as [->|Hne].
  - by rewrite lookup_insert_eq.
  - by rewrite lookup_insert_ne.
Qed.

Lemma addToThreadMap_then_lookup_witness :
  ∃ tm',
    addToThreadMap 5 7 ∅ (emptyWorld ThinkerOwnedByRunner RunnerInitializing) [] =
      Done tm' (emptyWorld ThinkerOwnedByRunner RunnerInitializing)
        ([] ++ [Lock mapsMutex; Unlock mapsMutex]) ∧
    ∀ th' w' tr',
      maybeGetRunnerForThread th' tm' w' tr' =
      Done (if decide (th' = 7) then Some 5 else (∅ : gmap ThreadId RunnerId) !! th') w'
           (tr' ++ [Lock mapsMutex; Unlock mapsMutex]).
Proof.
  apply (addToThreadMap_then_lookup 5 7 ∅
           (emptyWorld ThinkerOwnedByRunner RunnerInitializing) []).
  reflexivity.
Defined.

(** X2: a thread is registered at most once: once [addToThreadMap] has
    returned for a thread, a second [addToThreadMap] for it, for the same or
    for another runner, fails the assertion of line 274 and the first
    registration stands. *)
Theorem addToThreadMap_twice_fails runner runner' th (tm : gmap ThreadId RunnerId) w tr :
  tm !! th = None →
  (tm1 <- addToThreadMap runner th tm ;; addToThreadMap runner' th tm1) w tr =
  Failed (HERE 274) w (tr ++ [Lock mapsMutex; Unlock mapsMutex; Lock mapsMutex]).
Proof.
  intros Hn. rewrite bind_eq, addToThreadMap_eq, Hn. cbn [bindR].
  rewrite addToThreadMap_eq, lookup_insert_eq. by rewrite <- app_assoc.
Qed.

Lemma addToThreadMap_twice_fails_witness :
  (tm1 <- addToThreadMap 5 7 ∅ ;; addToThreadMap 6 7 tm1)
    (emptyWorld ThinkerOwnedByRunner RunnerInitializing) [] =
  Failed (HERE 274) (emptyWorld ThinkerOwnedByRunner RunnerInitializing)
    ([] ++ [Lock mapsMutex; Unlock mapsMutex; Lock mapsMutex]).
Proof.
  apply (addToThreadMap_twice_fails 5 6 7 ∅
           (emptyWorld ThinkerOwnedByRunner RunnerInitializing) []).
  reflexivity.
Defined.

(** X3: [removeFromThreadMap] does not look at its runner: it removes the
    entry of the thread whichever runner it is called with, also one that is
    not the runner registered for the thread; for a thread that is not in the
    map it fails the assertion of line 285. *)
Theorem removeFromThreadMap_ignores_runner runner th (tm : gmap ThreadId RunnerId) w tr :
  (∀ registered, tm !! th = Some registered →
     removeFromThreadMap runner th tm w tr =
       Done (delete th tm) w (tr ++ [Lock mapsMutex; Unlock mapsMutex]) ∧
     delete th tm !! th = None ∧
     ∀ th', th' ≠ th → delete th tm !! th' = tm !! th') ∧
  (tm !! th = None →
     removeFromThreadMap runner th tm w tr = Failed (HERE 285) w (tr ++ [Lock mapsMutex])).
Proof.
  rewrite removeFromThreadMap_eq. split.
  - intros registered ->. split_and!; [done|apply lookup_delete_eq|].
    intros th' Hne. by apply lookup_delete_ne.
  - by intros ->.
Qed.

Lemma removeFromThreadMap_ignores_runner_witness :
  removeFromThreadMap 6 7 {[7 := 5]} (emptyWorld ThinkerOwnedByRunner RunnerInitializing) [] =
    Done (delete 7 {[7 := 5]}) (emptyWorld ThinkerOwnedByRunner RunnerInitializing)
      ([] ++ [Lock mapsMutex; Unlock mapsMutex]) ∧
  delete 7 ({[7 := 5]} : gmap ThreadId RunnerId) !! 7 = None ∧
  ∀ th', th' ≠ 7 →
    delete 7 ({[7 := 5]} : gmap ThreadId RunnerId) !! th' =
    ({[7 := 5]} : gmap ThreadId RunnerId) !! th'.
Proof.
  apply (proj1 (removeFromThreadMap_ignores_runner 6 7 {[7 := 5]}
                  (emptyWorld ThinkerOwnedByRunner RunnerInitializing) []) 5).
  reflexivity.
Defined.

(** X4: the window of a worker: for a thread that is not in the thread map,
    registering it and removing it again leaves the thread map exactly as it
    was. *)
Theorem addToThreadMap_removeFromThreadMap runner th (tm : gmap ThreadId RunnerId) w tr :
  tm !! th = None →
  (tm1 <- addToThreadMap runner th tm ;; removeFromThreadMap runner th tm1) w tr =
  Done tm w (tr ++ [Lock mapsMutex; Unlock mapsMutex; Lock mapsMutex; Unlock mapsMutex]).
Proof.
  intros Hn. rewrite bind_eq, addToThreadMap_eq, Hn. cbn [bindR].
  rewrite removeFromThreadMap_eq, lookup_insert_eq, delete_insert_eq.
  rewrite delete_id by done. by rewrite <- app_assoc.
Qed.

Lemma addToThreadMap_removeFromThreadMap_witness :
  (tm1 <- addToThreadMap 5 7 {[8 := 6]} ;; removeFromThreadMap 5 7 tm1)
    (emptyWorld ThinkerOwnedByRunner RunnerInitializing) [] =
  Done {[8 := 6]} (emptyWorld ThinkerOwnedByRunner RunnerInitializing)
    ([] ++ [Lock mapsMutex; Unlock mapsMutex; Lock mapsMutex; Unlock mapsMutex]).
Proof.
  apply (addToThreadMap_removeFromThreadMap 5 7 {[8 := 6]}
           (emptyWorld ThinkerOwnedByRunner RunnerInitializing) []).
  reflexivity.
Defined.

(** X5: a thread counts as a thinker thread exactly during its window: for a
    thread that is not in the thread map [hopefullyCurrentThreadIsThinker]
    fails with the caller's code place and [getThinkerForThreadMaybeNull]
    returns null; between [addToThreadMap] and [removeFromThreadMap] the
    check holds and the thinker returned is the one the registered runner
    holds; after the removal the check fails again. *)
Theorem thinker_thread_window runner cur cp (tm : gmap ThreadId RunnerId) w tr :
  tm !! cur = None →
  hopefullyCurrentThreadIsThinker cur cp tm w tr =
    Failed cp w (tr ++ [Lock mapsMutex; Unlock mapsMutex]) ∧
  getThinkerForThreadMaybeNull cur tm w tr =
    Done None w (tr ++ [Lock mapsMutex; Unlock mapsMutex]) ∧
  (tm1 <- addToThreadMap runner cur tm ;;
   hopefullyCurrentThreadIsThinker cur cp tm1 ;;
   getThinkerForThreadMaybeNull cur tm1) w tr =
    Done (Some (holder (runners w runner))) w
      (tr ++ [Lock mapsMutex; Unlock mapsMutex; Lock mapsMutex; Unlock mapsMutex;
              Lock mapsMutex; Unlock mapsMutex]) ∧
  (tm1 <- addToThreadMap runner cur tm ;;
   tm2 <- removeFromThreadMap runner cur tm1 ;;
   hopefullyCurrentThreadIsThinker cur cp tm2) w tr =
    Failed cp w
      (tr ++ [Lock mapsMutex; Unlock mapsMutex; Lock mapsMutex; Unlock mapsMutex;
              Lock mapsMutex; Unlock mapsMutex]).
Proof.
  intros Hn. unfold hopefullyCurrentThreadIsThinker. split_and!.
  - by rewrite hopefullyThreadIsThinker_eq, Hn.
  - by rewrite getThinkerForThreadMaybeNull_eq, Hn.
  - rewrite bind_eq, addToThreadMap_eq, Hn. cbn [bindR].
    rewrite bind_eq, hopefullyThreadIsThinker_eq, lookup_insert_eq. cbn [bindR].
    rewrite getThinkerForThreadMaybeNull_eq, lookup_insert_eq.
    by rewrite <- !app_assoc.
  - rewrite bind_eq, addToThreadMap_eq, Hn. cbn [bindR].
    rewrite bind_eq, removeFromThreadMap_eq, lookup_insert_eq. cbn [bindR].
    rewrite hopefullyThreadIsThinker_eq, lookup_delete_eq.
    by rewrite <- !app_assoc.
Qed.

Lemma thinker_thread_window_witness :
  (tm1 <- addToThreadMap 5 7 ∅ ;;
   hopefullyCurrentThreadIsThinker 7 (HERE 1) tm1 ;;
   getThinkerForThreadMaybeNull 7 tm1)
    (emptyWorld ThinkerOwnedByRunner RunnerInitializing) [] =
  Done (Some 5) (emptyWorld ThinkerOwnedByRunner RunnerInitializing)
    ([] ++ [Lock mapsMutex; Unlock mapsMutex; Lock mapsMutex; Unlock mapsMutex;
            Lock mapsMutex; Unlock mapsMutex]).
Proof.
  refine (proj1 (proj2 (proj2 (thinker_thread_window 5 7 (HERE 1) ∅
            (emptyWorld ThinkerOwnedByRunner RunnerInitializing) [] _)))).
  reflexivity.
Defined.

(** ** The thinker map: how its operations compose *)

(** X6: insert and lookup: once [addToThinkerMap] has returned for a runner,
    the lookup by its thinker returns this runner; the assertion of the null
    branch is not reached, whatever the state of the thinker. *)
Theorem addToThinkerMap_then_lookup runner w tr :
  thinkerMap w !! holder (runners w runner) = None →
  (addToThinkerMap runner ;; maybeGetRunnerForThinker (holder (runners w runner))) w tr =
  Done (Some runner) (set_thinkerMap (insert (holder (runners w runner)) runner) w)
    (tr ++ [Lock mapsMutex; Unlock mapsMutex; Lock mapsMutex; Unlock mapsMutex]).
Proof.
  intros Hn. rewrite bind_eq, addToThinkerMap_eq, Hn. cbn [bindR].
  rewrite maybeGetRunnerForThinker_eq. simpl. rewrite lookup_insert_eq.
  by rewrite <- !app_assoc.
Qed.

Lemma addToThinkerMap_then_lookup_witness :
  (addToThinkerMap 1 ;;
   maybeGetRunnerForThinker
     (holder (runners (emptyWorld ThinkerOwnedByRunner RunnerInitializing) 1)))
    (emptyWorld ThinkerOwnedByRunner RunnerInitializing) [] =
  Done (Some 1)
    (set_thinkerMap
       (insert (holder (runners (emptyWorld ThinkerOwnedByRunner RunnerInitializing) 1)) 1)
       (emptyWorld ThinkerOwnedByRunner RunnerInitializing))
    ([] ++ [Lock mapsMutex; Unlock mapsMutex; Lock mapsMutex; Unlock mapsMutex]).
Proof.
  apply (addToThinkerMap_then_lookup 1
           (emptyWorld ThinkerOwnedByRunner RunnerInitializing) []).
  reflexivity.
Defined.

(** X7: a thinker has at most one runner in the map: after a runner has been
    added for a thinker, adding a runner that holds the same thinker (the
    same runner or another) fails the assertion of line 248, and the runner
    added first stays the thinker's entry. *)
Theorem addToThinkerMap_twice_fails r1 r2 w tr :
  thinkerMap w !! holder (runners w r1) = None →
  holder (runners w r2) = holder (runners w r1) →
  (addToThinkerMap r1 ;; addToThinkerMap r2) w tr =
  Failed (HERE 248) (set_thinkerMap (insert (holder (runners w r1)) r1) w)
    (tr ++ [Lock mapsMutex; Unlock mapsMutex; Lock mapsMutex]) ∧
  thinkerMap (set_thinkerMap (insert (holder (runners w r1)) r1) w)
    !! holder (runners w r1) = Some r1.
Proof.
  intros Hn Hh. split; [|simpl; apply lookup_insert_eq].
  rewrite bind_eq, addToThinkerMap_eq, Hn. cbn [bindR].
  rewrite addToThinkerMap_eq. simpl. rewrite Hh, lookup_insert_eq.
  by rewrite <- !app_assoc.
Qed.

Lemma addToThinkerMap_twice_fails_witness :
  (addToThinkerMap 1 ;; addToThinkerMap 1)
    (emptyWorld ThinkerOwnedByRunner RunnerInitializing) [] =
  Failed (HERE 248)
    (set_thinkerMap
       (insert (holder (runners (emptyWorld ThinkerOwnedByRunner RunnerInitializing) 1)) 1)
       (emptyWorld ThinkerOwnedByRunner RunnerInitializing))
    ([] ++ [Lock mapsMutex; Unlock mapsMutex; Lock mapsMutex]) ∧
  thinkerMap
    (set_thinkerMap
       (insert (holder (runners (emptyWorld ThinkerOwnedByRunner RunnerInitializing) 1)) 1)
       (emptyWorld ThinkerOwnedByRunner RunnerInitializing))
    !! holder (runners (emptyWorld ThinkerOwnedByRunner RunnerInitializing) 1) = Some 1.
Proof.
  apply (addToThinkerMap_twice_fails 1 1
           (emptyWorld ThinkerOwnedByRunner RunnerInitializing) []);
    reflexivity.
Defined.

(** X8: a runner is removed exactly once, and a thinker is run once: after a
    [removeFromThinkerMap] that has returned, a second removal of the same
    runner fails the assertion of line 260; and if the runner is added again
    first (which succeeds, the state of the thinker not being looked at), the
    removal deletes the entry once more and then fails the assertion of line
    262, the thinker keeping the terminal state of the first removal. *)
Theorem removeFromThinkerMap_once runner wasCanceled w tr w1 tr1 :
  removeFromThinkerMap runner wasCanceled w tr = Done tt w1 tr1 →
  ∀ again,
    removeFromThinkerMap runner again w1 tr1 =
      Failed (HERE 260) (set_thinkerMap (delete (holder (runners w runner))) w1)
        (tr1 ++ [Lock mapsMutex]) ∧
    ∃ w2,
      (addToThinkerMap runner ;; removeFromThinkerMap runner again) w1 tr1 =
        Failed (HERE 262) w2 (tr1 ++ [Lock mapsMutex; Unlock mapsMutex; Lock mapsMutex]) ∧
      thinkerMap w2 !! holder (runners w runner) = None ∧
      thinkers w2 (holder (runners w runner)) =
        (if wasCanceled then ThinkerCanceled else ThinkerFinished).
Proof.
  intros (_ & _ & -> & ->)%removeFromThinkerMap_Done again.
  set (t := holder (runners w runner)).
  split.
  - rewrite removeFromThinkerMap_eq. simpl. fold t. by rewrite lookup_delete_eq.
  - exists (set_thinkerMap (delete t)
              (set_thinkerMap (insert t runner)
                 (set_thinker t (if wasCanceled then ThinkerCanceled else ThinkerFinished)
                    (set_thinkerMap (delete t) w)))).
    rewrite bind_eq, addToThinkerMap_eq. simpl. fold t.
    rewrite lookup_delete_eq. cbn [bindR]. rewrite removeFromThinkerMap_eq.
    simpl. fold t. rewrite lookup_insert_eq.
    rewrite (decide_True (P := t = t)) by done.
    split_and!.
    + destruct wasCanceled; simpl; by rewrite <- !app_assoc.
    + apply lookup_delete_eq.
    + done.
Qed.

Lemma removeFromThinkerMap_once_witness :
  removeFromThinkerMap 1 true
    (set_thinker 1 ThinkerFinished
       (set_thinkerMap (delete 1) (oneThinker ThinkerOwnedByRunner RunnerFinished)))
    ([] ++ [Lock mapsMutex; Unlock mapsMutex]) =
  Failed (HERE 260)
    (set_thinkerMap
       (delete (holder (runners (oneThinker ThinkerOwnedByRunner RunnerFinished) 1)))
       (set_thinker 1 ThinkerFinished
          (set_thinkerMap (delete 1) (oneThinker ThinkerOwnedByRunner RunnerFinished))))
    (([] ++ [Lock mapsMutex; Unlock mapsMutex]) ++ [Lock mapsMutex]).
Proof.
  refine (proj1 (removeFromThinkerMap_once 1 false
                   (oneThinker ThinkerOwnedByRunner RunnerFinished) []
                   _ _ _ true)).
  reflexivity.
Defined.

(** X9: the life of a runner in the map: for a thinker that is not a key and
    is Owned-By-Runner, adding its runner, removing it and looking the
    thinker up returns null without failing an assertion; the thinker map is
    what it was before, the thinker has the terminal state the removal was
    called with, and the other thinkers and all runners are untouched. *)
Theorem addToThinkerMap_removeFromThinkerMap runner wasCanceled w tr :
  thinkerMap w !! holder (runners w runner) = None →
  thinkers w (holder (runners w runner)) = ThinkerOwnedByRunner →
  ∃ w',
    (addToThinkerMap runner ;;
     removeFromThinkerMap runner wasCanceled ;;
     maybeGetRunnerForThinker (holder (runners w runner))) w tr =
      Done None w'
        (tr ++ [Lock mapsMutex; Unlock mapsMutex; Lock mapsMutex; Unlock mapsMutex;
                Lock mapsMutex; Unlock mapsMutex]) ∧
    thinkerMap w' = thinkerMap w ∧
    thinkers w' (holder (runners w runner)) =
      (if wasCanceled then ThinkerCanceled else ThinkerFinished) ∧
    (∀ t, t ≠ holder (runners w runner) → thinkers w' t = thinkers w t) ∧
    runners w' = runners w.
Proof.
  intros Hn Ho. set (t := holder (runners w runner)) in *.
  exists (set_thinker t (if wasCanceled then ThinkerCanceled else ThinkerFinished)
            (set_thinkerMap (delete t) (set_thinkerMap (insert t runner) w))).
  rewrite bind_eq, addToThinkerMap_eq. fold t. rewrite Hn. cbn [bindR].
  rewrite bind_eq, removeFromThinkerMap_eq. simpl. fold t.
  rewrite lookup_insert_eq, decide_True by done. cbn [bindR].
  rewrite maybeGetRunnerForThinker_eq. simpl.
  rewrite lookup_delete_eq, (decide_True (P := t = t)) by done.
  split_and!.
  - destruct wasCanceled; simpl; by rewrite <- !app_assoc.
  - rewrite delete_insert_eq. by apply delete_id.
  - done.
  - intros t' Hne. by rewrite decide_False.
  - done.
Qed.

Lemma addToThinkerMap_removeFromThinkerMap_witness :
  ∃ w',
    (addToThinkerMap 1 ;;
     removeFromThinkerMap 1 true ;;
     maybeGetRunnerForThinker
       (holder (runners (emptyWorld ThinkerOwnedByRunner RunnerCanceled) 1)))
      (emptyWorld ThinkerOwnedByRunner RunnerCanceled) [] =
      Done None w'
        ([] ++ [Lock mapsMutex; Unlock mapsMutex; Lock mapsMutex; Unlock mapsMutex;
                Lock mapsMutex; Unlock mapsMutex]) ∧
    thinkerMap w' = thinkerMap (emptyWorld ThinkerOwnedByRunner RunnerCanceled) ∧
    thinkers w' (holder (runners (emptyWorld ThinkerOwnedByRunner RunnerCanceled) 1)) =
      (if true then ThinkerCanceled else ThinkerFinished) ∧
    (∀ t, t ≠ holder (runners (emptyWorld ThinkerOwnedByRunner RunnerCanceled) 1) →
          thinkers w' t = thinkers (emptyWorld ThinkerOwnedByRunner RunnerCanceled) t) ∧
    runners w' = runners (emptyWorld ThinkerOwnedByRunner RunnerCanceled).
Proof.
  apply (addToThinkerMap_removeFromThinkerMap 1 true
           (emptyWorld ThinkerOwnedByRunner RunnerCanceled) []);
    reflexivity.
Defined.

(** ** The controller's operations at their edges *)

(** X10: the operations of the controller do nothing on another thread:
    called on a thread that is not the manager's, each of them fails its
    first assertion with the world and the log untouched, the creation of a
    runner with the caller's code place and the others with their own; and
    [waitForPushToThread], which is for the workers, fails in the same way
    when it is called on the manager's thread. *)
Theorem controller_operations_off_thread cur cp w tr :
  (cur ≠ thread w →
   (∀ holder, createRunnerForThinker cur holder cp w tr = Failed cp w tr) ∧
   ensureThinkersPaused cur cp w tr = Failed (HERE 111) w tr ∧
   ensureThinkersResumed cur cp w tr = Failed (HERE 140) w tr ∧
   (∀ thinker, ensureThinkerFinished cur thinker w tr = Failed (HERE 200) w tr) ∧
   (∀ fuel runner, processThreadPushesUntil fuel cur runner w tr = Failed (HERE 303) w tr) ∧
   destroyThinkerManager cur w tr = Failed (HERE 330) w tr) ∧
  (cur = thread w →
   ∀ runner, waitForPushToThread cur runner w tr = Failed (HERE 291) w tr).
Proof.
  split.
  - intros Hne. split_and!; intros;
      unfold createRunnerForThinker, ensureThinkersPaused, ensureThinkersResumed,
        ensureThinkerFinished, processThreadPushesUntil, destroyThinkerManager;
      by rewrite bind_eq, hopefullyCurrentThreadIsManager_eq, decide_False.
  - intros Hc runner. unfold waitForPushToThread.
    by rewrite bind_eq, hopefullyCurrentThreadIsNotManager_eq, decide_True.
Qed.

Lemma controller_operations_off_thread_witness :
  ensureThinkersPaused 3 (HERE 1) (oneThinker ThinkerOwnedByRunner RunnerThinking) [] =
  Failed (HERE 111) (oneThinker ThinkerOwnedByRunner RunnerThinking) [].
Proof.
  refine (proj1 (proj2 (proj1 (controller_operations_off_thread 3 (HERE 1)
            (oneThinker ThinkerOwnedByRunner RunnerThinking) []) _))).
  simpl. lia.
Defined.

(** X11: with an empty thinker map, on the controller thread,
    [ensureThinkersPaused] and [ensureThinkersResumed] return at once: they
    lock and unlock the maps mutex, contact no runner, wait for nothing and
    leave the world as it is. *)
Theorem ensure_paused_resumed_empty_map cur cp w tr :
  cur = thread w → thinkerMap w = ∅ →
  ensureThinkersPaused cur cp w tr = Done tt w (tr ++ [Lock mapsMutex; Unlock mapsMutex]) ∧
  ensureThinkersResumed cur cp w tr = Done tt w (tr ++ [Lock mapsMutex; Unlock mapsMutex]).
Proof.
  intros Hc He. unfold ensureThinkersPaused, ensureThinkersResumed.
  split;
    rewrite bind_eq, hopefullyCurrentThreadIsManager_eq, decide_True by done;
    mrun; rewrite He, map_to_list_empty; cbn [forEach]; mrun;
    by rewrite <- !app_assoc.
Qed.

Lemma ensure_paused_resumed_empty_map_witness :
  ensureThinkersPaused 0 (HERE 1) (emptyWorld ThinkerFinished RunnerFinished) [] =
    Done tt (emptyWorld ThinkerFinished RunnerFinished)
      ([] ++ [Lock mapsMutex; Unlock mapsMutex]) ∧
  ensureThinkersResumed 0 (HERE 1) (emptyWorld ThinkerFinished RunnerFinished) [] =
    Done tt (emptyWorld ThinkerFinished RunnerFinished)
      ([] ++ [Lock mapsMutex; Unlock mapsMutex]).
Proof.
  apply (ensure_paused_resumed_empty_map 0 (HERE 1)
           (emptyWorld ThinkerFinished RunnerFinished) []);
    reflexivity.
Defined.

(** ** More on the push protocol *)

Lemma doThreadPushesIfNecessary_eq fuel cur w tr :
  cur = thread w →
  doThreadPushesIfNecessary (S fuel) cur w tr =
  Done tt (set_runnerSetToPush (fun _ => ∅) w)
    ((tr ++ [Lock pushThreadMutex]) ++ drain w ++ [Unlock pushThreadMutex]).
Proof.
  intros Hc. unfold doThreadPushesIfNecessary.
  rewrite processThreadPushesUntil_eq by done. apply pushRounds_found. by left.
Qed.

Lemma waitForPushToThread_eq cur runner w tr :
  cur ≠ thread w →
  waitForPushToThread cur runner w tr =
  Blocked (OnCondition threadsWerePushed)
    (set_runnerSetToPush (fun s => {[runner]} ∪ s) w)
    (tr ++ [Lock pushThreadMutex; WakeOne threadsNeedPushing;
            EmitPushToThreadMayBeNeeded; Wait threadsWerePushed])
    (fun w' =>
       Done tt w'
         ((tr ++ [Lock pushThreadMutex; WakeOne threadsNeedPushing;
                  EmitPushToThreadMayBeNeeded; Wait threadsWerePushed])
            ++ [Unlock pushThreadMutex])).
Proof.
  intros Hne. unfold waitForPushToThread.
  rewrite bind_eq, hopefullyCurrentThreadIsNotManager_eq, decide_False by done.
  mrun. unfold condWait. cbn [bindR].
  assert (E : (((tr ++ [Lock pushThreadMutex]) ++ [WakeOne threadsNeedPushing])
                 ++ [EmitPushToThreadMayBeNeeded]) ++ [Wait threadsWerePushed]
              = tr ++ [Lock pushThreadMutex; WakeOne threadsNeedPushing;
                       EmitPushToThreadMayBeNeeded; Wait threadsWerePushed])
    by (by rewrite <- !app_assoc).
  by rewrite E.
Qed.

(** X12: one call of [doThreadPushesIfNecessary] on the controller thread
    pushes every runner of the queue exactly once, broadcasts were-pushed and
    leaves the queue empty; called again on the emptied queue it pushes
    nothing, and still broadcasts and returns. *)
Theorem doThreadPushesIfNecessary_once fuel cur w tr :
  cur = thread w →
  ∃ pushed,
    doThreadPushesIfNecessary (S fuel) cur w tr =
      Done tt (set_runnerSetToPush (fun _ => ∅) w)
        ((tr ++ [Lock pushThreadMutex]) ++ map DoThreadPush pushed
           ++ [WakeAll threadsWerePushed; Unlock pushThreadMutex]) ∧
    NoDup pushed ∧ (∀ r, r ∈ pushed ↔ r ∈ runnerSetToPush w) ∧
    ∀ tr',
      doThreadPushesIfNecessary (S fuel) cur (set_runnerSetToPush (fun _ => ∅) w) tr' =
        Done tt (set_runnerSetToPush (fun _ => ∅) w)
          ((tr' ++ [Lock pushThreadMutex])
             ++ [WakeAll threadsWerePushed; Unlock pushThreadMutex]).
Proof.
  intros Hc. exists (elements (runnerSetToPush w)). split_and!.
  - rewrite doThreadPushesIfNecessary_eq by done. unfold drain.
    by rewrite <- !app_assoc.
  - apply NoDup_elements.
  - intros r. apply elem_of_elements.
  - intros tr'. rewrite doThreadPushesIfNecessary_eq by done. unfold drain. simpl.
    by rewrite elements_empty.
Qed.

Lemma doThreadPushesIfNecessary_once_witness :
  ∃ pushed,
    doThreadPushesIfNecessary 1 0
      (set_runnerSetToPush (fun _ => {[1; 2]})
         (emptyWorld ThinkerOwnedByRunner RunnerInitializing)) [] =
      Done tt
        (set_runnerSetToPush (fun _ => ∅)
           (set_runnerSetToPush (fun _ => {[1; 2]})
              (emptyWorld ThinkerOwnedByRunner RunnerInitializing)))
        (([] ++ [Lock pushThreadMutex]) ++ map DoThreadPush pushed
           ++ [WakeAll threadsWerePushed; Unlock pushThreadMutex]) ∧
    NoDup pushed ∧
    (∀ r, r ∈ pushed ↔
          r ∈ runnerSetToPush
                (set_runnerSetToPush (fun _ => {[1; 2]})
                   (emptyWorld ThinkerOwnedByRunner RunnerInitializing))) ∧
    ∀ tr',
      doThreadPushesIfNecessary 1 0
        (set_runnerSetToPush (fun _ => ∅)
           (set_runnerSetToPush (fun _ => {[1; 2]})
              (emptyWorld ThinkerOwnedByRunner RunnerInitializing))) tr' =
        Done tt
          (set_runnerSetToPush (fun _ => ∅)
             (set_runnerSetToPush (fun _ => {[1; 2]})
                (emptyWorld ThinkerOwnedByRunner RunnerInitializing)))
          ((tr' ++ [Lock pushThreadMutex])
             ++ [WakeAll threadsWerePushed; Unlock pushThreadMutex]).
Proof.
  apply (doThreadPushesIfNecessary_once 0 0
           (set_runnerSetToPush (fun _ => {[1; 2]})
              (emptyWorld ThinkerOwnedByRunner RunnerInitializing)) []).
  reflexivity.
Defined.

(** X13: the handshake: a worker that calls [waitForPushToThread] is
    suspended on were-pushed with its runner in the queue; a call of
    [doThreadPushesIfNecessary] by the controller in that world pushes this
    runner, broadcasts were-pushed and empties the queue; and the worker,
    going on in the world the controller leaves, unlocks the push mutex and
    returns. *)
Theorem push_handshake worker runner fuel w :
  worker ≠ thread w →
  ∃ w1 trw k,
    waitForPushToThread worker runner w [] =
      Blocked (OnCondition threadsWerePushed) w1 trw k ∧
    runner ∈ runnerSetToPush w1 ∧
    ∃ w2 trc,
      doThreadPushesIfNecessary (S fuel) (thread w) w1 [] = Done tt w2 trc ∧
      DoThreadPush runner ∈ trc ∧ WakeAll threadsWerePushed ∈ trc ∧
      runnerSetToPush w2 = ∅ ∧
      resume (fun _ => w2) (waitForPushToThread worker runner w []) =
        Done tt w2 (trw ++ [Unlock pushThreadMutex]).
Proof.
  intros Hne. rewrite waitForPushToThread_eq by done.
  eexists _, _, _. split; [reflexivity|]. split; [simpl; set_solver|].
  eexists _, _. split; [by apply doThreadPushesIfNecessary_eq|].
  split_and!; [| |done|done].
  - unfold drain. rewrite !elem_of_app. right. left. left.
    apply (list_elem_of_fmap_2 DoThreadPush), elem_of_elements. simpl. set_solver.
  - unfold drain. rewrite !elem_of_app. right. left. right. set_solver.
Qed.

Lemma push_handshake_witness :
  ∃ w1 trw k,
    waitForPushToThread 3 1 (emptyWorld ThinkerOwnedByRunner RunnerInitializing) [] =
      Blocked (OnCondition threadsWerePushed) w1 trw k ∧
    1 ∈ runnerSetToPush w1 ∧
    ∃ w2 trc,
      doThreadPushesIfNecessary 1
        (thread (emptyWorld ThinkerOwnedByRunner RunnerInitializing)) w1 [] =
        Done tt w2 trc ∧
      DoThreadPush 1 ∈ trc ∧ WakeAll threadsWerePushed ∈ trc ∧
      runnerSetToPush w2 = ∅ ∧
      resume (fun _ => w2)
        (waitForPushToThread 3 1 (emptyWorld ThinkerOwnedByRunner RunnerInitializing) []) =
        Done tt w2 (trw ++ [Unlock pushThreadMutex]).
Proof.
  apply (push_handshake 3 1 0 (emptyWorld ThinkerOwnedByRunner RunnerInitializing)).
  simpl. lia.
Defined.

(** X14: called with a target that is in the queue,
    [processThreadPushesUntil] does exactly what [doThreadPushesIfNecessary]
    does: it pushes the whole queue, not the target alone, in one round. *)
Theorem processThreadPushesUntil_queued_target fuel cur r w tr :
  cur = thread w → r ∈ runnerSetToPush w →
  processThreadPushesUntil (S fuel) cur (Some r) w tr =
  doThreadPushesIfNecessary (S fuel) cur w tr.
Proof.
  intros Hc Hr. rewrite doThreadPushesIfNecessary_eq by done.
  rewrite processThreadPushesUntil_eq by done. apply pushRounds_found. eauto.
Qed.

Lemma processThreadPushesUntil_queued_target_witness :
  processThreadPushesUntil 1 0 (Some 2)
    (set_runnerSetToPush (fun _ => {[1; 2]})
       (emptyWorld ThinkerOwnedByRunner RunnerInitializing)) [] =
  doThreadPushesIfNecessary 1 0
    (set_runnerSetToPush (fun _ => {[1; 2]})
       (emptyWorld ThinkerOwnedByRunner RunnerInitializing)) [].
Proof.
  apply (processThreadPushesUntil_queued_target 0 0 2
           (set_runnerSetToPush (fun _ => {[1; 2]})
              (emptyWorld ThinkerOwnedByRunner RunnerInitializing)) []).
  - reflexivity.
  - simpl. set_solver.
Defined.

(** ** Construction and destruction *)

(** X15: the assertion of the constructor cannot fail, and a manager
    destroyed on the thread that constructed it, with no runner created in
    between, is destroyed at once: the destructor locks and unlocks the maps
    mutex and returns without waiting for the pool, whatever work the pool
    has. *)
Theorem newThinkerManager_then_destroy cur w tr :
  newThinkerManager cur w tr =
    Done tt (mkWorld cur ∅ ∅ (thinkers w) (runners w) (nextRunner w) (pool w)) tr ∧
  (newThinkerManager cur ;; destroyThinkerManager cur) w tr =
    Done tt (mkWorld cur ∅ ∅ (thinkers w) (runners w) (nextRunner w) (pool w))
      (tr ++ [Lock mapsMutex; Unlock mapsMutex]).
Proof.
  assert (H : newThinkerManager cur w tr =
    Done tt (mkWorld cur ∅ ∅ (thinkers w) (runners w) (nextRunner w) (pool w)) tr).
  { unfold newThinkerManager. mrun.
    by rewrite hopefullyCurrentThreadIsManager_eq, decide_True. }
  split; [done|]. rewrite bind_eq, H. cbn [bindR]. unfold destroyThinkerManager.
  rewrite bind_eq, hopefullyCurrentThreadIsManager_eq, decide_True by done.
  mrun. simpl. rewrite map_to_list_empty. cbn [checkRunners]. mrun.
  by rewrite <- !app_assoc.
Qed.

(** ** Notifying the watchers *)

(** X16: [unlockThinker] pulses the throttler of every watcher of the thinker
    exactly once, all of them while it holds the read lock on the watchers,
    and pulses the manager's own throttler once, after it has released that
    lock; with no watcher it still pulses the manager's throttler. *)
Theorem unlockThinker_pulses_once thinker (watchers : gset nat) :
  (∃ notified,
     unlockThinker thinker watchers =
       [LockForRead thinker] ++ map NotificationEmitThrottled notified
         ++ [WatchersUnlock thinker; AnyThinkerWrittenEmitThrottled] ∧
     NoDup notified ∧ ∀ x, x ∈ notified ↔ x ∈ watchers) ∧
  (∀ x, NotificationEmitThrottled x ∈ unlockThinker thinker watchers ↔ x ∈ watchers) ∧
  unlockThinker thinker ∅ =
    [LockForRead thinker; WatchersUnlock thinker; AnyThinkerWrittenEmitThrottled].
Proof.
  split_and!.
  - exists (elements watchers). split; [done|]. split; [apply NoDup_elements|].
    intros x. apply elem_of_elements.
  - intros x. unfold unlockThinker. rewrite !elem_of_app, list_elem_of_fmap. split.
    + intros [H|[(y & [= ->] & H)|[H|H]]]; [|by apply elem_of_elements in H| |];
        apply list_elem_of_singleton in H; discriminate H.
    + intros H. right. left. exists x. by rewrite elem_of_elements.
  - unfold unlockThinker. by rewrite elements_empty.
Qed.

(** ** Finishing, canceling and removing *)

Lemma ensureThinkerFinished_finished_runner cur thinker r w tr :
  cur = thread w → thinkerMap w !! thinker = Some r → stateOf w r = RunnerFinished →
  ensureThinkerFinished cur thinker w tr =
  Done tt (set_thinker thinker ThinkerFinished w)
    ((tr ++ [Lock mapsMutex; Unlock mapsMutex]) ++ [WaitForFinished r]).
Proof.
  intros -> Hr E. unfold ensureThinkerFinished.
  rewrite bind_eq, hopefullyCurrentThreadIsManager_eq, decide_True by done.
  cbn [bindR]. rewrite bind_eq, maybeGetRunnerForThinker_eq, Hr. cbn [bindR].
  mrun. rewrite hopefully_eq, E. simpl. mrun. rewrite E. simpl. mrun.
  pose proof (lines215_220 thinker r w (tr ++ [Lock mapsMutex; Unlock mapsMutex])) as H.
  unfold Finishing in H. rewrite E in H. simpl in H. rewrite H.
  unfold finishedOrFailed. by rewrite decide_True.
Qed.

(** X17: [ensureThinkerFinished] writes the state of the thinker without
    taking its runner out of the thinker map: for a registered runner that is
    Finished it returns with the thinker Finished and the runner still the
    thinker's entry, and the removal of that runner, which asserts that the
    thinker is Owned-By-Runner, then deletes the entry and fails at line
    262. *)
Theorem ensureThinkerFinished_then_remove_fails cur thinker r w tr :
  cur = thread w → thinkerMap w !! thinker = Some r →
  holder (runners w r) = thinker → stateOf w r = RunnerFinished →
  ∃ w1 tr1,
    ensureThinkerFinished cur thinker w tr = Done tt w1 tr1 ∧
    thinkerMap w1 !! thinker = Some r ∧ thinkers w1 thinker = ThinkerFinished ∧
    ∀ wasCanceled,
      removeFromThinkerMap r wasCanceled w1 tr1 =
      Failed (HERE 262) (set_thinkerMap (delete thinker) w1) (tr1 ++ [Lock mapsMutex]).
Proof.
  intros Hc Hr Hh E. eexists _, _.
  split; [by apply ensureThinkerFinished_finished_runner|].
  split; [done|]. split; [simpl; by rewrite decide_True|].
  intros wasCanceled. rewrite removeFromThinkerMap_eq. simpl. rewrite Hh, Hr.
  by rewrite (decide_True (P := thinker = thinker)).
Qed.

Lemma ensureThinkerFinished_then_remove_fails_witness :
  ∃ w1 tr1,
    ensureThinkerFinished 0 1 (oneThinker ThinkerOwnedByRunner RunnerFinished) [] =
      Done tt w1 tr1 ∧
    thinkerMap w1 !! 1 = Some 1 ∧ thinkers w1 1 = ThinkerFinished ∧
    ∀ wasCanceled,
      removeFromThinkerMap 1 wasCanceled w1 tr1 =
      Failed (HERE 262) (set_thinkerMap (delete 1) w1) (tr1 ++ [Lock mapsMutex]).
Proof.
  apply (ensureThinkerFinished_then_remove_fails 0 1 1
           (oneThinker ThinkerOwnedByRunner RunnerFinished) []);
    reflexivity.
Defined.

(** X18: without a runner, Finished can become Canceled but not the other way
    round: for a Finished thinker that has no runner, on the controller
    thread, [ensureThinkerFinished] returns, the cancel request then relabels
    the thinker Canceled and returns, and [ensureThinkerFinished] on the
    Canceled thinker fails the assertion of line 220. *)
Theorem finished_then_canceled cur thinker w tr :
  cur = thread w → thinkerMap w !! thinker = None →
  thinkers w thinker = ThinkerFinished →
  (ensureThinkerFinished cur thinker ;;
   requestAndWaitForCancelButAlreadyCanceledIsOkay thinker) w tr =
    Done tt (set_thinker thinker ThinkerCanceled w)
      (tr ++ [Lock mapsMutex; Unlock mapsMutex; Lock mapsMutex; Unlock mapsMutex]) ∧
  (ensureThinkerFinished cur thinker ;;
   requestAndWaitForCancelButAlreadyCanceledIsOkay thinker ;;
   ensureThinkerFinished cur thinker) w tr =
    Failed (HERE 220) (set_thinker thinker ThinkerCanceled w)
      (tr ++ [Lock mapsMutex; Unlock mapsMutex; Lock mapsMutex; Unlock mapsMutex;
              Lock mapsMutex; Unlock mapsMutex]).
Proof.
  intros Hc Hn Hf.
  assert (H1 : ensureThinkerFinished cur thinker w tr =
               Done tt w (tr ++ [Lock mapsMutex; Unlock mapsMutex])).
  { rewrite ensureThinkerFinished_no_runner by done. by rewrite Hf. }
  assert (H2 : ∀ tr', requestAndWaitForCancelButAlreadyCanceledIsOkay thinker w tr' =
               Done tt (set_thinker thinker ThinkerCanceled w)
                 (tr' ++ [Lock mapsMutex] ++ [Unlock mapsMutex])).
  { intros tr'. rewrite requestAndWaitForCancel_no_runner by done.
    rewrite decide_False; [done|]. by rewrite Hf. }
  split.
  - rewrite bind_eq, H1. cbn [bindR]. rewrite H2. by rewrite <- !app_assoc.
  - rewrite bind_eq, H1. cbn [bindR]. rewrite bind_eq, H2. cbn [bindR].
    rewrite ensureThinkerFinished_no_runner by done. simpl.
    rewrite decide_True by done. by rewrite <- !app_assoc.
Qed.

Lemma finished_then_canceled_witness :
  (ensureThinkerFinished 0 1 ;;
   requestAndWaitForCancelButAlreadyCanceledIsOkay 1 ;;
   ensureThinkerFinished 0 1) (emptyWorld ThinkerFinished RunnerFinished) [] =
  Failed (HERE 220) (set_thinker 1 ThinkerCanceled (emptyWorld ThinkerFinished RunnerFinished))
    ([] ++ [Lock mapsMutex; Unlock mapsMutex; Lock mapsMutex; Unlock mapsMutex;
            Lock mapsMutex; Unlock mapsMutex]).
Proof.
  apply (proj2 (finished_then_canceled 0 1 (emptyWorld ThinkerFinished RunnerFinished) []
                  eq_refl eq_refl eq_refl)).
Defined.

(** X20: a thinker that is Owned-By-Runner but has no runner in the thinker
    map can neither be canceled nor be ensured finished through the manager:
    both calls fail in the lookup, at the assertion of line 169, before they
    request anything or write the thinker's state. *)
Theorem unregistered_owned_thinker_fails cur thinker w tr :
  cur = thread w → thinkerMap w !! thinker = None →
  thinkers w thinker = ThinkerOwnedByRunner →
  requestAndWaitForCancelButAlreadyCanceledIsOkay thinker w tr =
    Failed (HERE 169) w (tr ++ [Lock mapsMutex]) ∧
  ensureThinkerFinished cur thinker w tr =
    Failed (HERE 169) w (tr ++ [Lock mapsMutex]).
Proof.
  intros Hc Hn Ho. split.
  - rewrite requestAndWaitForCancel_no_runner by done. by rewrite decide_True.
  - rewrite ensureThinkerFinished_no_runner by done. by rewrite Ho.
Qed.

Lemma unregistered_owned_thinker_fails_witness :
  requestAndWaitForCancelButAlreadyCanceledIsOkay 1
    (emptyWorld ThinkerOwnedByRunner RunnerInitializing) [] =
    Failed (HERE 169) (emptyWorld ThinkerOwnedByRunner RunnerInitializing)
      ([] ++ [Lock mapsMutex]) ∧
  ensureThinkerFinished 0 1 (emptyWorld ThinkerOwnedByRunner RunnerInitializing) [] =
    Failed (HERE 169) (emptyWorld ThinkerOwnedByRunner RunnerInitializing)
      ([] ++ [Lock mapsMutex]).
Proof.
  apply (unregistered_owned_thinker_fails 0 1
           (emptyWorld ThinkerOwnedByRunner RunnerInitializing) []);
    reflexivity.
Defined.

End Thinker.
